(** * models.py: LeNet-5, ResNet-9, device selection, train/test loops and
    the CombinedDataset wrapper.

    The Python module is embedded as follows.
    - Python exceptions are values of [PyError]; a call that may raise
      returns a [result].
    - The tensor library is an interface ([TorchOps]): the two models are
      compositions of its operations, written once for every tensor type.
      [ShapeOps] instantiates it with tensor shapes, following the
      library's documented shape rules.
    - Library calls with an effect (seeding, printing, optimizer steps) are
      threaded through an explicit state. *)

From Stdlib Require Import String ZArith List Bool Arith Lia ZifyNat.
From Stdlib Require PrimFloat.
Import ListNotations.

Set Implicit Arguments.
Set Warnings "-register-all".

(** ** Exceptions *)

Inductive PyError : Type :=
| IndexError
| RuntimeError
| ValueError
| ZeroDivisionError
(* any other exception, such as one raised by a caller's transform *)
| UserError (tag : nat).

Inductive result (A : Type) : Type :=
| Ok (a : A)
| Raise (e : PyError).

Arguments Ok {A} a.
Arguments Raise {A} e.

Definition bind {A B : Type} (r : result A) (k : A -> result B) : result B :=
  match r with
  | Ok a => k a
  | Raise e => Raise e
  end.

Declare Scope py_scope.
Delimit Scope py_scope with py.
Notation "x <- c1 ;; c2" := (bind c1 (fun x => c2))
  (at level 100, c1 at next level, right associativity) : py_scope.
Open Scope py_scope.

(** ** The tensor library *)

Module Torch.

(** [nn.Conv2d(in_channels, out_channels, kernel_size, stride, padding)] *)
Record Conv2dCfg : Type := mkConv2d {
  in_channels : nat;
  out_channels : nat;
  kernel_size : nat;
  stride : nat;
  padding : nat
}.

(** The [nn.Module]s the source instantiates.  A descriptor stands for the
    module object together with the parameters it owns. *)
Inductive Module : Type :=
| Conv2d (cfg : Conv2dCfg)
| BatchNorm2d (num_features : nat)
| ReLU
| MaxPool2d (kernel stride : nat)
| AvgPool2d (kernel stride : nat)
| Linear (in_features out_features : nat)
| Sequential (layers : list Module).

(** The operations of the tensor library used by models.py, over an
    arbitrary carrier [T] of tensors. *)
Class TorchOps (T : Type) : Type := {
  conv2d : Conv2dCfg -> T -> result T;
  (* the flag is the module's [training] attribute *)
  batch_norm2d : nat -> bool -> T -> result T;
  relu : T -> result T;
  max_pool2d : nat -> nat -> T -> result T;
  avg_pool2d : nat -> nat -> T -> result T;
  linear : nat -> nat -> T -> result T;
  (* [x.view(x.size(0), -1)] *)
  view_flat : T -> result T;
  (* [a + b] *)
  tadd : T -> T -> result T;
  (* [torch.zeros(n, c, h, w)] *)
  zeros : nat -> nat -> nat -> nat -> T;
  (* [x.size()] *)
  size : T -> list nat
}.

Section Call.
Context {T : Type} `{Ops : TorchOps T}.

(** [m(x)]: calling a module; [nn.Sequential] feeds each layer's output
    to the next one. *)
Fixpoint call (training : bool) (m : Module) (x : T) {struct m} : result T :=
  match m with
  | Conv2d cfg => conv2d cfg x
  | BatchNorm2d n => batch_norm2d n training x
  | ReLU => relu x
  | MaxPool2d k s => max_pool2d k s x
  | AvgPool2d k s => avg_pool2d k s x
  | Linear i o => linear i o x
  | Sequential layers =>
      (fix seq (ms : list Module) (x : T) {struct ms} : result T :=
         match ms with
         | [] => Ok x
         | m' :: ms' => y <- call training m' x ;; seq ms' y
         end) layers x
  end.

Definition call_seq (training : bool) : list Module -> T -> result T :=
  fix seq (ms : list Module) (x : T) {struct ms} : result T :=
    match ms with
    | [] => Ok x
    | m' :: ms' => y <- call training m' x ;; seq ms' y
    end.
End Call.

(** *** Shapes *)

(** Shapes of the tensors that flow through the two models: 4-D batches
    [(batch, channels, height, width)] and, after flattening, 2-D
    [(batch, features)]. *)
Inductive Shape : Type :=
| Sh4 (b c h w : nat)
| Sh2 (b f : nat).

Definition dims (s : Shape) : list nat :=
  match s with
  | Sh4 b c h w => [b; c; h; w]
  | Sh2 b f => [b; f]
  end.

Definition numel (s : Shape) : nat := fold_right Nat.mul 1 (dims s).

(** Output length of a sliding window along one axis:
    [floor((n + 2*pad - k) / stride) + 1], undefined when the window does
    not fit or the stride is zero. *)
Definition window_out (n k s pad : nat) : option nat :=
  if (s =? 0) || negb (k <=? n + 2 * pad) then None
  else Some ((n + 2 * pad - k) / s + 1).

(** [nn.Conv2d] on a 4-D input: a layer without output channels is
    rejected, the input's channels must be the layer's, the kernel must
    fit; an input without channels yields an output without channels. *)
Definition shape_conv2d (cfg : Conv2dCfg) (x : Shape) : result Shape :=
  match x with
  | Sh4 b c h w =>
      if out_channels cfg =? 0 then Raise RuntimeError
      else if c =? in_channels cfg then
        match window_out h (kernel_size cfg) (stride cfg) (padding cfg),
              window_out w (kernel_size cfg) (stride cfg) (padding cfg) with
        | Some h', Some w' =>
            Ok (Sh4 b (if c =? 0 then 0 else out_channels cfg) h' w')
        | _, _ => Raise RuntimeError
        end
      else Raise RuntimeError
  | Sh2 _ _ => Raise RuntimeError
  end.

(** [nn.BatchNorm2d]: a 4-D input is required; in training mode more than
    one value per channel is required ([size[0] * size[2] * size[3] != 1]);
    a tensor without elements is passed on as it is; otherwise the channel
    count must match. *)
Definition shape_batch_norm2d (n : nat) (training : bool) (x : Shape)
  : result Shape :=
  match x with
  | Sh4 b c h w =>
      if training && (b * h * w =? 1) then Raise ValueError
      else if numel x =? 0 then Ok x
      else if c =? n then Ok x else Raise RuntimeError
  | Sh2 _ _ => Raise ValueError
  end.

(** [nn.MaxPool2d] and [nn.AvgPool2d]: only the batch axis may be empty. *)
Definition shape_pool2d (k s : nat) (x : Shape) : result Shape :=
  match x with
  | Sh4 b c h w =>
      if c =? 0 then Raise RuntimeError
      else
        match window_out h k s 0, window_out w k s 0 with
        | Some h', Some w' => Ok (Sh4 b c h' w')
        | _, _ => Raise RuntimeError
        end
  | Sh2 _ _ => Raise RuntimeError
  end.

(** [nn.Linear] acts on the last axis. *)
Definition shape_linear (i o : nat) (x : Shape) : result Shape :=
  match x with
  | Sh4 b c h w => if w =? i then Ok (Sh4 b c h o) else Raise RuntimeError
  | Sh2 b f => if f =? i then Ok (Sh2 b o) else Raise RuntimeError
  end.

(** [x.view(x.size(0), -1)]: the inferred axis is [numel / size(0)]; with
    an empty leading axis the inference is ambiguous and the library
    raises. *)
Definition shape_view_flat (x : Shape) : result Shape :=
  let b := hd 0 (dims x) in
  if b =? 0 then Raise RuntimeError else Ok (Sh2 b (numel x / b)).

(** Broadcasting of two axes: equal, or one of them is 1. *)
Definition bcast_dim (a b : nat) : option nat :=
  if a =? b then Some a
  else if a =? 1 then Some b
  else if b =? 1 then Some a
  else None.

(** Broadcasting of two shapes given innermost axis first. *)
Fixpoint bcast_rev (xs ys : list nat) : option (list nat) :=
  match xs, ys with
  | [], _ => Some ys
  | _, [] => Some xs
  | a :: xs', b :: ys' =>
      match bcast_dim a b, bcast_rev xs' ys' with
      | Some d, Some ds => Some (d :: ds)
      | _, _ => None
      end
  end.

Definition shape_of_dims (ds : list nat) : option Shape :=
  match ds with
  | [b; c; h; w] => Some (Sh4 b c h w)
  | [b; f] => Some (Sh2 b f)
  | _ => None
  end.

Definition shape_add (x y : Shape) : result Shape :=
  match bcast_rev (rev (dims x)) (rev (dims y)) with
  | Some ds =>
      match shape_of_dims (rev ds) with
      | Some s => Ok s
      | None => Raise RuntimeError
      end
  | None => Raise RuntimeError
  end.

#[export] Instance ShapeOps : TorchOps Shape := {
  conv2d := shape_conv2d;
  batch_norm2d := shape_batch_norm2d;
  relu := fun x => Ok x;
  max_pool2d := shape_pool2d;
  avg_pool2d := shape_pool2d;
  linear := shape_linear;
  view_flat := shape_view_flat;
  tadd := shape_add;
  zeros := Sh4;
  size := dims
}.

End Torch.
Import Torch.

(** ** Models *)

Section Models.
Context {T : Type} `{Ops : TorchOps T}.

(** *** LeNet-5 *)

Record LeNet5 : Type := mkLeNet5 {
  conv1 : Module;
  pool1 : Module;
  conv2 : Module;
  pool2 : Module;
  feature_size : nat;
  fc1 : Module;
  fc2 : Module;
  fc3 : Module
}.

(** [prod(t.size()[1:])] *)
Definition prod_tail (ds : list nat) : nat := fold_right Nat.mul 1 (tl ds).

(** [LeNet5.__init__]: freshly built modules are in training mode. *)
Definition LeNet5_init (in_channels num_classes : nat)
    (input_size : nat * nat) : result LeNet5 :=
  let conv1 := Conv2d (mkConv2d in_channels 6 5 1 2) in
  let pool1 := AvgPool2d 2 2 in
  let conv2 := Conv2d (mkConv2d 6 16 5 1 0) in
  let pool2 := AvgPool2d 2 2 in
  let dummy_input := zeros 1 in_channels (fst input_size) (snd input_size) in
  a <- call true conv1 dummy_input ;;
  b <- call true pool1 a ;;
  c <- call true conv2 b ;;
  dummy_output <- call true pool2 c ;;
  let feature_size := prod_tail (size dummy_output) in
  Ok (mkLeNet5 conv1 pool1 conv2 pool2 feature_size
        (Linear feature_size 120) (Linear 120 84) (Linear 84 num_classes)).

(** [LeNet5.forward] *)
Definition LeNet5_forward (training : bool) (self : LeNet5) (x : T)
  : result T :=
  x <- call training (conv1 self) x ;;
  x <- relu x ;;
  x <- call training (pool1 self) x ;;
  x <- call training (conv2 self) x ;;
  x <- relu x ;;
  x <- call training (pool2 self) x ;;
  x <- view_flat x ;;
  x <- call training (fc1 self) x ;;
  x <- relu x ;;
  x <- call training (fc2 self) x ;;
  x <- relu x ;;
  x <- call training (fc3 self) x ;;
  Ok x.

(** *** ResNet-9 *)

(** [residual_block(in_channels, out_channels, pool)] *)
Definition residual_block (in_channels out_channels : nat) (pool : bool)
  : Module :=
  let layers :=
    [ Conv2d (mkConv2d in_channels out_channels 3 1 1);
      BatchNorm2d out_channels;
      ReLU ] in
  let layers := if pool then layers ++ [MaxPool2d 2 2] else layers in
  Sequential layers.

Record ResNet9 : Type := mkResNet9 {
  prep : Module;
  layer1_head : Module;
  layer1_residual : Module;
  layer2 : Module;
  layer3_head : Module;
  layer3_residual : Module;
  pool : Module;
  r_feature_size : nat;
  r_linear : Module
}.

(** [d.size(1) * d.size(2) * d.size(3)] *)
Definition size123 (ds : list nat) : nat :=
  nth 1 ds 0 * nth 2 ds 0 * nth 3 ds 0.

(** [ResNet9.__init__] *)
Definition ResNet9_init (in_channels num_classes : nat)
    (input_size : nat * nat) : result ResNet9 :=
  let prep := residual_block in_channels 64 false in
  let layer1_head := residual_block 64 128 true in
  let layer1_residual :=
    Sequential [residual_block 128 128 false; residual_block 128 128 false] in
  let layer2 := residual_block 128 256 true in
  let layer3_head := residual_block 256 512 true in
  let layer3_residual :=
    Sequential [residual_block 512 512 false; residual_block 512 512 false] in
  let pool := MaxPool2d 2 2 in
  let dummy_input := zeros 1 in_channels (fst input_size) (snd input_size) in
  a <- call true prep dummy_input ;;
  b <- call true layer1_head a ;;
  c <- call true layer2 b ;;
  d <- call true layer3_head c ;;
  dummy_output <- call true pool d ;;
  let feature_size := size123 (size dummy_output) in
  Ok (mkResNet9 prep layer1_head layer1_residual layer2 layer3_head
        layer3_residual pool feature_size (Linear feature_size num_classes)).

(** [ResNet9.forward] *)
Definition ResNet9_forward (training : bool) (self : ResNet9) (x : T)
  : result T :=
  x <- call training (prep self) x ;;
  x <- call training (layer1_head self) x ;;
  r <- call training (layer1_residual self) x ;;
  x <- tadd r x ;;
  x <- call training (layer2 self) x ;;
  x <- call training (layer3_head self) x ;;
  r <- call training (layer3_residual self) x ;;
  x <- tadd r x ;;
  x <- call training (pool self) x ;;
  x <- view_flat x ;;
  x <- call training (r_linear self) x ;;
  Ok x.

(** *** The operations of the models, in the order they are applied

    Each model applies its operations one after the other, every one to
    the result of the one before. *)

Fixpoint run_stages (fs : list (T -> result T)) (x : T) : result T :=
  match fs with
  | [] => Ok x
  | f :: fs' => y <- f x ;; run_stages fs' y
  end.

(** The dry run of [LeNet5.__init__]:
    [self.pool2(self.conv2(self.pool1(self.conv1(dummy_input))))] *)
Definition LeNet5_dry_run (in_channels : nat) : list (T -> result T) :=
  [ call true (Conv2d (mkConv2d in_channels 6 5 1 2));
    call true (AvgPool2d 2 2);
    call true (Conv2d (mkConv2d 6 16 5 1 0));
    call true (AvgPool2d 2 2) ].

(** The body of [LeNet5.forward], line by line. *)
Definition LeNet5_stages (training : bool) (self : LeNet5)
  : list (T -> result T) :=
  [ call training (conv1 self); relu;
    call training (pool1 self);
    call training (conv2 self); relu;
    call training (pool2 self);
    view_flat;
    call training (fc1 self); relu;
    call training (fc2 self); relu;
    call training (fc3 self) ].

(** [x = m(x) + x] *)
Definition skip (training : bool) (m : Module) (x : T) : result T :=
  r <- call training m x ;; tadd r x.

(** The dry run of [ResNet9.__init__]:
    [self.pool(self.layer3_head(self.layer2(self.layer1_head(self.prep(dummy_input)))))] *)
Definition ResNet9_dry_run (in_channels : nat) : list (T -> result T) :=
  [ call true (residual_block in_channels 64 false);
    call true (residual_block 64 128 true);
    call true (residual_block 128 256 true);
    call true (residual_block 256 512 true);
    call true (MaxPool2d 2 2) ].

(** The body of [ResNet9.forward], line by line. *)
Definition ResNet9_stages (training : bool) (self : ResNet9)
  : list (T -> result T) :=
  [ call training (prep self);
    call training (layer1_head self);
    skip training (layer1_residual self);
    call training (layer2 self);
    call training (layer3_head self);
    skip training (layer3_residual self);
    call training (pool self);
    view_flat;
    call training (r_linear self) ].
End Models.


(** The convolution + batch-normalization + ReLU chain (with the optional
    max-pooling) that [residual_block] puts in its [nn.Sequential]. *)
Definition conv_bn_relu {T : Type} `{Ops : TorchOps T} (training : bool)
    (in_channels out_channels : nat) (pool : bool) (x : T) : result T :=
  x <- conv2d (mkConv2d in_channels out_channels 3 1 1) x ;;
  x <- batch_norm2d out_channels training x ;;
  x <- relu x ;;
  if pool then max_pool2d 2 2 x else Ok x.

(** The reading of a residual block under which every block adds its
    result to its own input. *)
Definition block_adds_input (T : Type) `{Ops : TorchOps T} : Prop :=
  forall (training : bool) (i o : nat) (p : bool) (x : T),
    call training (residual_block i o p) x =
    (y <- conv_bn_relu training i o p x ;; tadd y x).

Arguments block_adds_input T {_}.

(** ** Objects with methods

    A method reads and may update the object it is called on, and may
    raise; after a raise the object is as the method left it. *)

Definition Method (S A : Type) : Type := S -> result A * S.

Definition mret {S A : Type} (a : A) : Method S A := fun s => (Ok a, s).

Definition mbind {S A B : Type} (m : Method S A) (k : A -> Method S B)
  : Method S B :=
  fun s =>
    match m s with
    | (Ok a, s') => k a s'
    | (Raise e, s') => (Raise e, s')
    end.

(** Reading an attribute of [self]. *)
Definition read {S A : Type} (f : S -> A) : Method S A := fun s => (Ok (f s), s).

(** Updating [self]. *)
Definition update {S : Type} (f : S -> S) : Method S unit :=
  fun s => (Ok tt, f s).

(** A call that does not touch [self]. *)
Definition lift {S A : Type} (r : result A) : Method S A := fun s => (r, s).

Declare Scope method_scope.
Delimit Scope method_scope with method.
Notation "x <~ c1 ;; c2" := (mbind c1 (fun x => c2))
  (at level 100, c1 at next level, right associativity) : method_scope.
Notation "c1 ;;; c2" := (mbind c1 (fun _ => c2))
  (at level 100, right associativity) : method_scope.

(** ** CombinedDataset *)

(** [seq[idx]] for an integer index: negative indices count from the end,
    an index outside [-len, len) raises [IndexError]. *)
Definition py_getitem {A : Type} (l : list A) (idx : Z) : result A :=
  let n := Z.of_nat (length l) in
  let i := if (idx <? 0)%Z then (idx + n)%Z else idx in
  if ((i <? 0) || (n <=? i))%Z then Raise IndexError
  else
    match nth_error l (Z.to_nat i) with
    | Some a => Ok a
    | None => Raise IndexError
    end.

Section Dataset.
Variables X Y : Type.

(** The attributes set by [__init__]; [transform] is [None] or a
    callable, which may raise. *)
Record CombinedDataset : Type := mkCombinedDataset {
  features : list X;
  labels : list Y;
  transform : option (X -> result X)
}.

(** [CombinedDataset.__init__] *)
Definition CombinedDataset_init (features : list X) (labels : list Y)
    (transform : option (X -> result X)) : CombinedDataset :=
  mkCombinedDataset features labels transform.

(** [CombinedDataset.__len__] *)
Definition CombinedDataset_len : Method CombinedDataset nat :=
  (fs <~ read features ;;
   mret (length fs))%method.

(** [CombinedDataset.__getitem__] *)
Definition CombinedDataset_getitem (idx : Z)
  : Method CombinedDataset (X * Y) :=
  (fs <~ read features ;;
   x <~ lift (py_getitem fs idx) ;;
   ls <~ read labels ;;
   y <~ lift (py_getitem ls idx) ;;
   t <~ read transform ;;
   x <~ match t with
        | Some f => lift (f x)
        | None => mret x
        end ;;
   mret (x, y))%method.

(** What a client can call on a dataset, and what it gets back. *)
Inductive DatasetCall : Type :=
| CallLen
| CallGetItem (idx : Z).

Inductive DatasetValue : Type :=
| VLen (n : nat)
| VItem (item : X * Y).

Definition invoke (c : DatasetCall) : Method CombinedDataset DatasetValue :=
  match c with
  | CallLen => (n <~ CombinedDataset_len ;; mret (VLen n))%method
  | CallGetItem idx =>
      (p <~ CombinedDataset_getitem idx ;; mret (VItem p))%method
  end.

(** A client making calls one after the other on the same object,
    whether or not a call raises. *)
Fixpoint invoke_all (cs : list DatasetCall) (self : CombinedDataset)
  : list (result DatasetValue) * CombinedDataset :=
  match cs with
  | [] => ([], self)
  | c :: cs' =>
      let (r, self') := invoke c self in
      let (rs, self'') := invoke_all cs' self' in
      (r :: rs, self'')
  end.

End Dataset.

Arguments mkCombinedDataset {X Y} _ _ _.
Arguments CombinedDataset_init {X Y} _ _ _.
Arguments CombinedDataset_len {X Y}.
Arguments CombinedDataset_getitem {X Y} idx%_Z.
Arguments invoke {X Y} _.
Arguments invoke_all {X Y} _ _.

(** ** Device selection *)

(** What the library reports about accelerators. *)
Record Accelerators : Type := mkAccelerators {
  cuda_is_available : bool;
  mps_is_available : bool
}.

(** The value returned: the strings ['cuda'] and ['cpu'], or
    [torch.device("mps")]. *)
Inductive Device : Type :=
| DeviceName (name : string)
| TorchDevice (name : string).

(** The library calls with an effect, in the order they are made. *)
Inductive Effect : Type :=
| ManualSeed (seed : Z)
| CudaManualSeedAll (seed : Z)
| MpsManualSeed (seed : Z)
| Print (line : string).

Definition is_seeding (e : Effect) : bool :=
  match e with
  | Print _ => false
  | _ => true
  end.

(** [check_gpu(manual_seed, print_info)] *)
Definition check_gpu (acc : Accelerators) (manual_seed print_info : bool)
  : Device * list Effect :=
  let seeded := if manual_seed then [ManualSeed 0] else [] in
  if cuda_is_available acc then
    (DeviceName "cuda"%string,
     seeded ++ (if print_info then [Print "CUDA is available"%string] else [])
            ++ [CudaManualSeedAll 0])
  else if mps_is_available acc then
    (TorchDevice "mps"%string,
     seeded ++ (if print_info then [Print "MPS is available"%string] else [])
            ++ [MpsManualSeed 0])
  else
    (DeviceName "cpu"%string,
     seeded ++ (if print_info then [Print "CUDA is not available"%string] else [])).

(** The reading under which the generator is seeded on every path. *)
Definition always_seeds : Prop :=
  forall (acc : Accelerators) (manual_seed print_info : bool),
    existsb is_seeding (snd (check_gpu acc manual_seed print_info)) = true.

(** ** Training and evaluation loops *)

(** The model, the optimizer and the tensors are the caller's; the loops
    use them through the following library operations. *)
Class LoopLib (Model Optimizer Params Data Logits Loss Num : Type)
  : Type := {
  (* [model.train()], [model.eval()], [model.parameters()] *)
  set_train : Model -> Model;
  set_eval : Model -> Model;
  parameters : Model -> Params;
  (* [model(data)]: one row of logits per sample; may update the model's
     buffers, may raise *)
  model_call : Data -> Method Model (list Logits);
  (* [x.to(device)] succeeds on a usable device and keeps the values *)
  device_ok : Device -> bool;
  (* [len(data)] *)
  data_len : Data -> nat;
  (* [F.cross_entropy(output, target)], [loss.item()], [loss.backward()] *)
  cross_entropy : list Logits -> list nat -> result Loss;
  (* [F.cross_entropy(output, target, reduction='sum').item()]: the
     library's own sum over the batch, as a Python number *)
  cross_entropy_sum : list Logits -> list nat -> result Num;
  loss_item : Loss -> Num;
  backward : Loss -> Method Model unit;
  (* [optimizer.zero_grad()], [optimizer.step()]: the optimizer holds the
     model's parameters and updates them in place *)
  zero_grad : Optimizer -> Model -> Model;
  optimizer_step : Optimizer -> Model -> Model * Optimizer;
  (* the cross-entropy loss of one sample, the row's [argmax], and the
     arithmetic of Python numbers *)
  ce_sample : Logits -> nat -> result Num;
  argmax : Logits -> nat;
  rzero : Num;
  radd : Num -> Num -> Num;
  rdiv : Num -> nat -> Num
}.

Section Loops.
Variables Model Optimizer Params Data Logits Loss Num : Type.
Context `{Lib : LoopLib Model Optimizer Params Data Logits Loss Num}.

Definition to {A : Type} (device : Device) (x : A) : result A :=
  if device_ok device then Ok x else Raise RuntimeError.


(** The samples whose [argmax] equals the label. *)
Definition count_correct (ps : list (Logits * nat)) : nat :=
  length (filter (fun p => argmax (fst p) =? snd p) ps).

(** [pred.eq(target.view_as(pred)).sum().item()] with
    [pred = output.argmax(dim=1, keepdim=True)] *)
Definition correct_in_batch (output : list Logits) (target : list nat)
  : result nat :=
  if length output =? length target
  then Ok (count_correct (combine output target))
  else Raise RuntimeError.

(** [x / n] on Python numbers *)
Definition py_div (x : Num) (n : nat) : result Num :=
  if n =? 0 then Raise ZeroDivisionError else Ok (rdiv x n).

(** A loader yields batches of data with their labels;
    [len(loader)] is the number of batches and [len(loader.dataset)]
    the size of the dataset behind it. *)
Record Loader : Type := mkLoader {
  batches : list (Data * list nat);
  dataset_len : nat
}.

(** The lines printed, with the values that are formatted into them.
    The percentage of a progress line is [100 * batch_idx / n_batches],
    that of a summary is [100 * correct / total]. *)
Inductive Line : Type :=
| TrainProgress (epoch seen total batch_idx n_batches : nat) (loss : Num)
| TestSummary (average_loss : Num) (correct total : nat).

(** What the loops act on. *)
Record World : Type := mkWorld {
  model : Model;
  optimizer : Optimizer;
  console : list Line
}.

Definition on_model {A : Type} (m : Method Model A) : Method World A :=
  fun w =>
    let (r, m') := m (model w) in
    (r, mkWorld m' (optimizer w) (console w)).

Definition print (l : Line) : Method World unit :=
  update (fun w => mkWorld (model w) (optimizer w) (console w ++ [l])).

Definition do_zero_grad : Method World unit :=
  update (fun w =>
            mkWorld (zero_grad (optimizer w) (model w)) (optimizer w)
              (console w)).

Definition do_step : Method World unit :=
  update (fun w =>
            let (m', o') := optimizer_step (optimizer w) (model w) in
            mkWorld m' o' (console w)).

Open Scope method_scope.

(** The body of the loop of [simple_train], from batch [batch_idx] on. *)
Fixpoint train_loop (device : Device) (loader : Loader) (epoch : nat)
    (batch_idx : nat) (bs : list (Data * list nat)) : Method World unit :=
  match bs with
  | [] => mret tt
  | (data, target) :: rest =>
      data <~ lift (to device data) ;;
      target <~ lift (to device target) ;;
      do_zero_grad ;;;
      output <~ on_model (model_call data) ;;
      loss <~ lift (cross_entropy output target) ;;
      on_model (backward loss) ;;;
      do_step ;;;
      (if batch_idx mod 100 =? 0
       then print (TrainProgress epoch (batch_idx * data_len data)
                     (dataset_len loader) batch_idx
                     (length (batches loader)) (loss_item loss))
       else mret tt) ;;;
      train_loop device loader epoch (S batch_idx) rest
  end.

(** [simple_train(model, device, train_loader, optimizer, epoch)] *)
Definition simple_train (device : Device) (train_loader : Loader)
    (epoch : nat) : Method World unit :=
  on_model (update set_train) ;;;
  train_loop device train_loader epoch 0 (batches train_loader).

(** The body of the loop of [simple_test], carrying [test_loss] and
    [correct]. *)
Fixpoint test_loop (device : Device) (bs : list (Data * list nat))
    (test_loss : Num) (correct : nat) : Method World (Num * nat) :=
  match bs with
  | [] => mret (test_loss, correct)
  | (data, target) :: rest =>
      data <~ lift (to device data) ;;
      target <~ lift (to device target) ;;
      output <~ on_model (model_call data) ;;
      batch_loss <~ lift (cross_entropy_sum output target) ;;
      let test_loss := radd test_loss batch_loss in
      batch_correct <~ lift (correct_in_batch output target) ;;
      let correct := correct + batch_correct in
      test_loop device rest test_loss correct
  end.

(** [simple_test(model, device, test_loader)]; [torch.no_grad()] only
    switches gradient recording off for the duration of the loop. *)
Definition simple_test (device : Device) (test_loader : Loader)
  : Method World unit :=
  on_model (update set_eval) ;;;
  acc <~ test_loop device (batches test_loader) rzero 0 ;;
  test_loss <~ lift (py_div (fst acc) (dataset_len test_loader)) ;;
  print (TestSummary test_loss (snd acc) (dataset_len test_loader)).






Close Scope method_scope.
End Loops.

(** ** A one-weight model

    A small instance of the loop library: the model multiplies every
    input by its weight and rejects negative inputs; losses are
    integers. *)

Module OneWeight.

Record Net : Type := mkNet {
  weight : Z;
  grad : Z;
  training : bool
}.

Definition net_call (d : list Z) : Method Net (list Z) :=
  fun m =>
    if existsb (fun x => (x <? 0)%Z) d then (Raise ValueError, m)
    else (Ok (map (fun x => (x * weight m)%Z) d), m).

#[export] Instance lib : LoopLib Net unit Z (list Z) Z Z Z := {
  set_train := fun m => mkNet (weight m) (grad m) true;
  set_eval := fun m => mkNet (weight m) (grad m) false;
  parameters := weight;
  model_call := net_call;
  device_ok := fun dev =>
    match dev with
    | DeviceName _ => true
    | TorchDevice _ => false
    end;
  data_len := @length Z;
  cross_entropy := fun out _ => Ok (fold_right Z.add 0%Z out);
  loss_item := fun l => l;
  backward := fun l m => (Ok tt, mkNet (weight m) l (training m));
  zero_grad := fun _ m => mkNet (weight m) 0 (training m);
  optimizer_step := fun o m =>
    (mkNet (weight m - grad m) (grad m) (training m), o);
  cross_entropy_sum := fun out tgt =>
    if length out =? length tgt
    then Ok (fold_right Z.add 0%Z
               (map (fun p => Z.abs (fst p - Z.of_nat (snd p)))
                  (combine out tgt)))
    else Raise ValueError;
  ce_sample := fun l y => Ok (Z.abs (l - Z.of_nat y));
  argmax := fun l => if (l <=? 0)%Z then 0 else 1;
  rzero := 0%Z;
  radd := Z.add;
  rdiv := fun x n => (x / Z.of_nat n)%Z
}.

Definition net0 : Net := mkNet 1 0 true.
Definition world0 : World Net unit Z := mkWorld net0 tt [].
Definition loader0 : Loader (list Z) :=
  mkLoader [([0; 1; 7]%Z, [0; 1; 1]); ([4; 0]%Z, [0; 0])] 5.
Definition loader_bad : Loader (list Z) :=
  mkLoader [([0; 1]%Z, [0; 1]); ([-1]%Z, [0])] 3.

End OneWeight.

(** ** An evaluation in binary64 arithmetic

    Python numbers are binary64 floats.  In this instance the output of
    the (stand-in) model for a sample is one number, taken as the loss of
    that sample, and the library adds up the losses of a batch. *)

Module Binary64.

Fixpoint float_of_nat (n : nat) : PrimFloat.float :=
  match n with
  | 0 => PrimFloat.zero
  | S k => PrimFloat.add (float_of_nat k) PrimFloat.one
  end.

Definition float_sum (l : list PrimFloat.float) : PrimFloat.float :=
  fold_right PrimFloat.add PrimFloat.zero l.

#[export] Instance lib
  : LoopLib unit unit unit (list PrimFloat.float) PrimFloat.float
      PrimFloat.float PrimFloat.float := {
  set_train := fun m => m;
  set_eval := fun m => m;
  parameters := fun m => m;
  model_call := fun d m => (Ok d, m);
  device_ok := fun _ => true;
  data_len := @length PrimFloat.float;
  cross_entropy := fun out _ =>
    Ok (PrimFloat.div (float_sum out) (float_of_nat (length out)));
  loss_item := fun l => l;
  backward := fun _ m => (Ok tt, m);
  zero_grad := fun _ m => m;
  optimizer_step := fun o m => (m, o);
  cross_entropy_sum := fun out tgt =>
    if length out =? length tgt then Ok (float_sum out)
    else Raise ValueError;
  ce_sample := fun l _ => Ok l;
  argmax := fun _ => 0;
  rzero := PrimFloat.zero;
  radd := PrimFloat.add;
  rdiv := fun x n => PrimFloat.div x (float_of_nat n)
}.

(** [k / 10] *)
Definition tenths (k : nat) : PrimFloat.float :=
  PrimFloat.div (float_of_nat k) (float_of_nat 10).

(** Three samples with losses 0.1, 0.2 and 0.3, in batches of two. *)
Definition loader : Loader (list PrimFloat.float) :=
  mkLoader [([tenths 1; tenths 2], [0; 0]); ([tenths 3], [0])] 3.


End Binary64.

(** ** The epochs of the driver *)

Section Driver.
Variables Model Optimizer Params Data Logits Loss Num : Type.
Context `{Lib : LoopLib Model Optimizer Params Data Logits Loss Num}.

Open Scope method_scope.

(** [count] epochs numbered from [epoch] on: a pass of [simple_train]
    followed by a pass of [simple_test]. *)
Fixpoint epochs_from (device : Device) (train_loader test_loader : Loader Data)
    (epoch count : nat) : Method (World Model Optimizer Num) unit :=
  match count with
  | 0 => mret tt
  | S count' =>
      simple_train device train_loader epoch ;;;
      simple_test device test_loader ;;;
      epochs_from device train_loader test_loader (S epoch) count'
  end.

(** The loop that ends [main]:
    [for epoch in range(1, epochs + 1): simple_train(...); simple_test(...)] *)
Definition run_epochs (device : Device) (train_loader test_loader : Loader Data)
    (epochs : nat) : Method (World Model Optimizer Num) unit :=
  epochs_from device train_loader test_loader 1 epochs.

Close Scope method_scope.
End Driver.

(** * Properties *)

Ltac Zify.zify_post_hook ::= Z.to_euclidean_division_equations.

Lemma bind_Ok_inv {A B : Type} (r : result A) (k : A -> result B) (b : B) :
  bind r k = Ok b -> exists a, r = Ok a /\ k a = Ok b.
Proof.
  destruct r as [a|e]; simpl; intros E; [eauto | discriminate].
Qed.

Lemma call_Sequential {T : Type} `{Ops : TorchOps T} (training : bool)
    (ms : list Module) (x : T) :
  call training (Sequential ms) x = call_seq training ms x.
Proof. reflexivity. Qed.

(** A block built by [residual_block] is the plain chain of its layers. *)
Lemma residual_block_call {T : Type} `{Ops : TorchOps T} (training : bool)
    (i o : nat) (p : bool) (x : T) :
  call training (residual_block i o p) x = conv_bn_relu training i o p x.
Proof.
  unfold residual_block, conv_bn_relu.
  destruct p; rewrite call_Sequential; simpl;
    destruct (conv2d _ x) as [a|]; simpl; trivial;
    destruct (batch_norm2d o training a) as [b|]; simpl; trivial;
    destruct (relu b) as [c|]; simpl; trivial.
  destruct (max_pool2d 2 2 c); reflexivity.
Qed.

Lemma bind_ret_r {A : Type} (r : result A) : (x <- r ;; Ok x) = r.
Proof. destruct r; reflexivity. Qed.

Lemma bind_ext {A B : Type} (r r' : result A) (k k' : A -> result B) :
  r = r' -> (forall a, k a = k' a) -> bind r k = bind r' k'.
Proof. intros <- Hk. destruct r; simpl; auto. Qed.

(** Two blocks in sequence, as in [layer1_residual] and [layer3_residual]. *)
Lemma residual_pair_call {T : Type} `{Ops : TorchOps T} (training : bool)
    (c : nat) (x : T) :
  call training
    (Sequential [residual_block c c false; residual_block c c false]) x =
  (a <- conv_bn_relu training c c false x ;;
   conv_bn_relu training c c false a).
Proof.
  rewrite call_Sequential. cbn [call_seq].
  rewrite !residual_block_call.
  destruct (conv_bn_relu training c c false x) as [a|]; simpl; trivial.
  apply bind_ret_r.
Qed.

Lemma ResNet9_init_fields {T : Type} `{Ops : TorchOps T} (in_c ncls : nat)
    (isz : nat * nat) (m : ResNet9) :
  ResNet9_init in_c ncls isz = Ok m ->
  prep m = residual_block in_c 64 false /\
  layer1_head m = residual_block 64 128 true /\
  layer1_residual m =
    Sequential [residual_block 128 128 false; residual_block 128 128 false] /\
  layer2 m = residual_block 128 256 true /\
  layer3_head m = residual_block 256 512 true /\
  layer3_residual m =
    Sequential [residual_block 512 512 false; residual_block 512 512 false] /\
  pool m = MaxPool2d 2 2 /\
  r_linear m = Linear (r_feature_size m) ncls.
Proof.
  unfold ResNet9_init. intros E.
  repeat (apply bind_Ok_inv in E; destruct E as [? [_ E]]).
  injection E as <-. cbn. repeat split.
Qed.

(** [ResNet9.forward] written out over the blocks' layers. *)
Lemma ResNet9_forward_chain {T : Type} `{Ops : TorchOps T} (training : bool)
    (in_c ncls : nat) (isz : nat * nat) (m : ResNet9) (x : T) :
  ResNet9_init in_c ncls isz = Ok m ->
  ResNet9_forward training m x =
    (x1 <- conv_bn_relu training in_c 64 false x ;;
     x2 <- conv_bn_relu training 64 128 true x1 ;;
     r1 <- (a <- conv_bn_relu training 128 128 false x2 ;;
            conv_bn_relu training 128 128 false a) ;;
     x3 <- tadd r1 x2 ;;
     x4 <- conv_bn_relu training 128 256 true x3 ;;
     x5 <- conv_bn_relu training 256 512 true x4 ;;
     r2 <- (a <- conv_bn_relu training 512 512 false x5 ;;
            conv_bn_relu training 512 512 false a) ;;
     x6 <- tadd r2 x5 ;;
     x7 <- max_pool2d 2 2 x6 ;;
     x8 <- view_flat x7 ;;
     linear (r_feature_size m) ncls x8).
Proof.
  intros Hinit.
  destruct (ResNet9_init_fields _ _ _ Hinit)
    as (Hp & H1h & H1r & H2 & H3h & H3r & Hpool & Hlin).
  unfold ResNet9_forward.
  rewrite Hp, H1h, H1r, H2, H3h, H3r, Hpool, Hlin.
  repeat (apply bind_ext;
          [ first [ apply residual_pair_call
                  | apply residual_block_call
                  | reflexivity ]
          | intros ? ]).
  apply bind_ret_r.
Qed.

(** C1 (as amended): a block built by [residual_block] passes on the
    result of its convolution, batch normalization and ReLU (and pooling)
    with no addition; [ResNet9.forward] adds a skip connection only around
    [layer1_residual] and [layer3_residual], each a sequence of two blocks,
    whose result is added to the input of the sequence. *)
Theorem ResNet9_skip_connections {T : Type} `{Ops : TorchOps T} (training : bool)
    (in_c ncls : nat) (isz : nat * nat) (m : ResNet9) (x : T) :
  ResNet9_init in_c ncls isz = Ok m ->
  (forall (i o : nat) (p : bool) (y : T),
      call training (residual_block i o p) y =
      conv_bn_relu training i o p y) /\
  ResNet9_forward training m x =
    (x1 <- conv_bn_relu training in_c 64 false x ;;
     x2 <- conv_bn_relu training 64 128 true x1 ;;
     r1 <- (a <- conv_bn_relu training 128 128 false x2 ;;
            conv_bn_relu training 128 128 false a) ;;
     x3 <- tadd r1 x2 ;;
     x4 <- conv_bn_relu training 128 256 true x3 ;;
     x5 <- conv_bn_relu training 256 512 true x4 ;;
     r2 <- (a <- conv_bn_relu training 512 512 false x5 ;;
            conv_bn_relu training 512 512 false a) ;;
     x6 <- tadd r2 x5 ;;
     x7 <- max_pool2d 2 2 x6 ;;
     x8 <- view_flat x7 ;;
     linear (r_feature_size m) ncls x8).
Proof.
  intros Hinit. split.
  - intros i o p y. apply residual_block_call.
  - now apply ResNet9_forward_chain with (isz := isz).
Qed.

(** C1 (as stated) fails: the first block of ResNet-9 on a 3-channel
    32x32 image yields 64 channels and passes that on; adding its input
    would not even be defined. *)
Lemma residual_block_no_skip : ~ block_adds_input Shape.
Proof.
  intros Hclaim.
  specialize (Hclaim true 3 64 false (Sh4 1 3 32 32)).
  vm_compute in Hclaim. discriminate Hclaim.
Qed.

(** *** Shapes through the two models *)

Lemma Ok_inj {A : Type} (a b : A) : Ok a = Ok b -> a = b.
Proof. now intros [= ->]. Qed.

Lemma window_conv5p2 (n : nat) :
  window_out n 5 1 2 = if 1 <=? n then Some n else None.
Proof.
  unfold window_out. cbn [Nat.eqb orb].
  destruct (Nat.leb_spec 5 (n + 2 * 2)), (Nat.leb_spec 1 n);
    cbn [negb]; try lia; trivial.
  f_equal. rewrite Nat.div_1_r. lia.
Qed.

Lemma window_conv5 (n : nat) :
  window_out n 5 1 0 = if 5 <=? n then Some (n - 4) else None.
Proof.
  unfold window_out. cbn [Nat.eqb orb].
  destruct (Nat.leb_spec 5 (n + 2 * 0)), (Nat.leb_spec 5 n);
    cbn [negb]; try lia; trivial.
  f_equal. rewrite Nat.div_1_r. lia.
Qed.

Lemma window_conv3 (n : nat) :
  window_out n 3 1 1 = if 1 <=? n then Some n else None.
Proof.
  unfold window_out. cbn [Nat.eqb orb].
  destruct (Nat.leb_spec 3 (n + 2 * 1)), (Nat.leb_spec 1 n);
    cbn [negb]; try lia; trivial.
  f_equal. rewrite Nat.div_1_r. lia.
Qed.

Lemma window_pool2 (n : nat) :
  window_out n 2 2 0 = if 2 <=? n then Some (n / 2) else None.
Proof.
  unfold window_out. cbn [Nat.eqb orb].
  destruct (Nat.leb_spec 2 (n + 2 * 0)), (Nat.leb_spec 2 n);
    cbn [negb]; try lia; trivial.
  f_equal. lia.
Qed.

Lemma shape_pool2d_eq (b c h w : nat) :
  shape_pool2d 2 2 (Sh4 b c h w) =
  if (1 <=? c) && (2 <=? h) && (2 <=? w)
  then Ok (Sh4 b c (h / 2) (w / 2)) else Raise RuntimeError.
Proof.
  cbn [shape_pool2d]. rewrite !window_pool2.
  destruct c; [reflexivity|].
  change (S c =? 0) with false. change (1 <=? S c) with true. cbn [andb].
  destruct (2 <=? h); [|reflexivity].
  destruct (2 <=? w); reflexivity.
Qed.

Lemma shape_pool2d_inv (b c h w : nat) (s : Shape) :
  shape_pool2d 2 2 (Sh4 b c h w) = Ok s ->
  1 <= c /\ 2 <= h /\ 2 <= w /\ s = Sh4 b c (h / 2) (w / 2).
Proof.
  rewrite shape_pool2d_eq.
  destruct (Nat.leb_spec 1 c); [|discriminate].
  destruct (Nat.leb_spec 2 h); [|discriminate].
  destruct (Nat.leb_spec 2 w); [|discriminate].
  intros E. apply Ok_inj in E. auto.
Qed.

Lemma shape_pool2d_ok (b c h w : nat) :
  1 <= c -> 2 <= h -> 2 <= w ->
  shape_pool2d 2 2 (Sh4 b c h w) = Ok (Sh4 b c (h / 2) (w / 2)).
Proof.
  intros Hc Hh Hw. rewrite shape_pool2d_eq.
  destruct (Nat.leb_spec 1 c); [|lia].
  destruct (Nat.leb_spec 2 h); [|lia].
  destruct (Nat.leb_spec 2 w); [reflexivity|lia].
Qed.

Lemma shape_view_flat_Sh4 (b c h w : nat) :
  0 < b -> shape_view_flat (Sh4 b c h w) = Ok (Sh2 b (c * (h * (w * 1)))).
Proof.
  intros Hb. unfold shape_view_flat, numel. cbn [dims hd fold_right].
  destruct (Nat.eqb_spec b 0); [lia|].
  rewrite (Nat.mul_comm b), Nat.div_mul by lia. reflexivity.
Qed.

Lemma size123_dims (b c h w : nat) :
  size123 (size (Sh4 b c h w)) = c * h * w.
Proof. reflexivity. Qed.

Lemma shape_linear_Sh2 (i o b : nat) :
  shape_linear i o (Sh2 b i) = Ok (Sh2 b o).
Proof. cbn. now rewrite Nat.eqb_refl. Qed.

Lemma shape_add_same (s : Shape) : shape_add s s = Ok s.
Proof.
  destruct s; unfold shape_add; cbn [dims rev app bcast_rev];
    unfold bcast_dim; rewrite !Nat.eqb_refl; reflexivity.
Qed.

Lemma mul3_ne_1 (b x y : nat) : 2 <= x -> b * x * y <> 1.
Proof. intros Hx. destruct b, y; nia. Qed.

(** Batch normalization after a convolution with [o] output channels:
    the channels match, or there is nothing to normalize. *)
Lemma shape_batch_norm2d_after_conv (training : bool) (o b c h w : nat) :
  shape_batch_norm2d o training (Sh4 b (if c =? 0 then 0 else o) h w) =
  if training && (b * h * w =? 1) then Raise ValueError
  else Ok (Sh4 b (if c =? 0 then 0 else o) h w).
Proof.
  cbn [shape_batch_norm2d].
  destruct (training && (b * h * w =? 1)); [reflexivity|].
  destruct c; cbn [Nat.eqb].
  - unfold numel. cbn [dims fold_right].
    rewrite Nat.mul_0_l, Nat.mul_0_r. reflexivity.
  - rewrite Nat.eqb_refl. now destruct (numel _ =? 0).
Qed.

(** A block of ResNet-9 on a 4-D shape. *)
Lemma conv_bn_relu_shape_eq (training : bool) (i o : nat) (p : bool)
    (b c h w : nat) :
  conv_bn_relu training i o p (Sh4 b c h w) =
  if negb ((1 <=? o) && (c =? i) && (1 <=? h) && (1 <=? w))
  then Raise RuntimeError
  else if training && (b * h * w =? 1) then Raise ValueError
  else if negb p then Ok (Sh4 b (if c =? 0 then 0 else o) h w)
  else if (1 <=? c) && (2 <=? h) && (2 <=? w)
       then Ok (Sh4 b o (h / 2) (w / 2))
       else Raise RuntimeError.
Proof.
  unfold conv_bn_relu.
  cbn [conv2d batch_norm2d relu max_pool2d ShapeOps shape_conv2d
       in_channels out_channels kernel_size stride padding].
  destruct o as [|o']; [reflexivity|].
  change (S o' =? 0) with false. change (1 <=? S o') with true. cbn [andb].
  destruct (c =? i); [|reflexivity]. rewrite !window_conv3.
  destruct (1 <=? h); [|reflexivity].
  destruct (1 <=? w); [|reflexivity].
  cbn [andb negb bind]. rewrite shape_batch_norm2d_after_conv.
  destruct (training && (b * h * w =? 1)); [reflexivity|].
  cbn [bind]. destruct p; [|reflexivity]. cbn [negb].
  rewrite shape_pool2d_eq.
  destruct c as [|c']; [reflexivity|].
  change (S c' =? 0) with false. change (1 <=? S c') with true.
  change (1 <=? S o') with true. cbn [andb].
  destruct (2 <=? h); [|reflexivity].
  destruct (2 <=? w); reflexivity.
Qed.

Lemma conv_bn_relu_shape_inv (training : bool) (i o : nat) (p : bool)
    (b c h w : nat) (s : Shape) :
  conv_bn_relu training i o p (Sh4 b c h w) = Ok s ->
  c = i /\ 1 <= o /\ 1 <= h /\ 1 <= w /\
  (training = true -> b * h * w <> 1) /\
  (p = true -> 1 <= c /\ 2 <= h /\ 2 <= w) /\
  s = (if p then Sh4 b o (h / 2) (w / 2)
       else Sh4 b (if c =? 0 then 0 else o) h w).
Proof.
  rewrite conv_bn_relu_shape_eq.
  destruct (Nat.leb_spec 1 o); [|discriminate].
  destruct (Nat.eqb_spec c i); [|discriminate].
  destruct (Nat.leb_spec 1 h); [|discriminate].
  destruct (Nat.leb_spec 1 w); [|discriminate].
  cbn [andb negb].
  assert (Hbn : training && (b * h * w =? 1) = false ->
                training = true -> b * h * w <> 1).
  { intros E ->. cbn in E. now apply Nat.eqb_neq. }
  destruct (training && (b * h * w =? 1)); [discriminate|].
  specialize (Hbn eq_refl).
  destruct p; cbn [negb].
  - destruct (Nat.leb_spec 1 c); [|discriminate].
    destruct (Nat.leb_spec 2 h); [|discriminate].
    destruct (Nat.leb_spec 2 w); [|discriminate].
    intros E. apply Ok_inj in E. auto 10.
  - intros E. apply Ok_inj in E. repeat split; auto; discriminate.
Qed.

Lemma conv_bn_relu_shape_ok (training : bool) (i o : nat) (p : bool)
    (b h w : nat) :
  1 <= i -> 1 <= o -> 1 <= h -> 1 <= w -> b * h * w <> 1 ->
  (p = true -> 2 <= h /\ 2 <= w) ->
  conv_bn_relu training i o p (Sh4 b i h w) =
  Ok (if p then Sh4 b o (h / 2) (w / 2) else Sh4 b o h w).
Proof.
  intros Hi Ho Hh Hw Hbhw Hp. rewrite conv_bn_relu_shape_eq.
  rewrite Nat.eqb_refl.
  destruct (Nat.leb_spec 1 o); [|lia].
  destruct (Nat.leb_spec 1 h); [|lia].
  destruct (Nat.leb_spec 1 w); [|lia].
  destruct (Nat.eqb_spec (b * h * w) 1); [contradiction|].
  rewrite andb_false_r. cbn [andb negb].
  destruct (Nat.eqb_spec i 0); [lia|].
  destruct p; [|reflexivity]. cbn [negb].
  destruct (Hp eq_refl).
  destruct (Nat.leb_spec 1 i); [|lia].
  destruct (Nat.leb_spec 2 h); [|lia].
  destruct (Nat.leb_spec 2 w); [reflexivity|lia].
Qed.

Ltac block_side :=
  first [ lia | discriminate | apply mul3_ne_1; lia | intros _; split; lia ].

Ltac split_leb :=
  repeat (match goal with
          | |- context [?a <=? ?b] =>
              destruct (Nat.leb_spec a b); [|try lia]
          end;
          cbn [bind shape_pool2d shape_conv2d in_channels kernel_size
               stride padding out_channels andb Nat.eqb];
          rewrite ?window_conv5, ?window_pool2).

(** The convolutional part of LeNet-5 on a 4-D shape, followed by any
    continuation. *)
Lemma LeNet5_features_shape {R : Type} (in_c b c h w : nat)
    (k : Shape -> result R) :
  (x <- shape_conv2d (mkConv2d in_c 6 5 1 2) (Sh4 b c h w) ;;
   x <- shape_pool2d 2 2 x ;;
   x <- shape_conv2d (mkConv2d 6 16 5 1 0) x ;;
   x <- shape_pool2d 2 2 x ;;
   k x) =
  if (1 <=? c) && (c =? in_c) && (12 <=? h) && (12 <=? w)
  then k (Sh4 b 16 ((h / 2 - 4) / 2) ((w / 2 - 4) / 2))
  else Raise RuntimeError.
Proof.
  cbn [shape_conv2d in_channels kernel_size stride padding out_channels
       Nat.eqb].
  destruct (Nat.eqb_spec c in_c) as [->|Hc];
    [|now rewrite andb_false_r].
  rewrite !window_conv5p2.
  destruct in_c as [|n].
  - change (1 <=? 0) with false. cbn [Nat.eqb andb].
    destruct (1 <=? h); [|reflexivity].
    destruct (1 <=? w); reflexivity.
  - change (1 <=? S n) with true. change (S n =? 0) with false.
    cbn [andb].
    destruct (Nat.leb_spec 12 h) as [Hh|Hh],
             (Nat.leb_spec 12 w) as [Hw|Hw];
      cbn [andb]; split_leb; try lia; reflexivity.
Qed.

Lemma LeNet5_init_eq (in_c ncls h w : nat) :
  LeNet5_init in_c ncls (h, w) =
  if (1 <=? in_c) && (12 <=? h) && (12 <=? w) then
    let f := 16 * ((h / 2 - 4) / 2) * ((w / 2 - 4) / 2) in
    Ok (mkLeNet5 (Conv2d (mkConv2d in_c 6 5 1 2)) (AvgPool2d 2 2)
          (Conv2d (mkConv2d 6 16 5 1 0)) (AvgPool2d 2 2) f
          (Linear f 120) (Linear 120 84) (Linear 84 ncls))
  else Raise RuntimeError.
Proof.
  unfold LeNet5_init.
  cbn [call conv2d avg_pool2d ShapeOps zeros fst snd].
  rewrite LeNet5_features_shape, Nat.eqb_refl, andb_true_r.
  destruct ((1 <=? in_c) && (12 <=? h) && (12 <=? w)); [|reflexivity].
  cbn [size ShapeOps dims prod_tail tl fold_right].
  now rewrite Nat.mul_1_r, Nat.mul_assoc.
Qed.

Lemma LeNet5_forward_eq (training : bool) (in_c ncls h w : nat) (m : LeNet5)
    (b c h' w' : nat) :
  LeNet5_init in_c ncls (h, w) = Ok m ->
  LeNet5_forward training m (Sh4 b c h' w') =
  if (0 <? b) && (c =? in_c) && (12 <=? h') && (12 <=? w') &&
     ((h' / 2 - 4) / 2 * ((w' / 2 - 4) / 2) =?
      (h / 2 - 4) / 2 * ((w / 2 - 4) / 2))
  then Ok (Sh2 b ncls) else Raise RuntimeError.
Proof.
  rewrite LeNet5_init_eq.
  destruct (Nat.leb_spec 1 in_c) as [Hin|]; [|discriminate].
  cbn [andb].
  destruct ((12 <=? h) && (12 <=? w)); [|discriminate].
  cbv zeta.
  remember (16 * ((h / 2 - 4) / 2) * ((w / 2 - 4) / 2)) as F eqn:HF.
  intros E. apply Ok_inj in E. subst m. unfold LeNet5_forward.
  cbn [conv1 pool1 conv2 pool2 fc1 fc2 fc3 feature_size call conv2d
       avg_pool2d relu linear view_flat ShapeOps bind].
  rewrite LeNet5_features_shape.
  destruct (Nat.eqb_spec c in_c) as [->|Hc];
    [|now rewrite !andb_false_r].
  destruct (Nat.leb_spec 1 in_c); [|lia]. cbn [andb].
  destruct (Nat.ltb_spec 0 b) as [Hb|Hb].
  - cbn [andb].
    destruct ((12 <=? h') && (12 <=? w')); [|reflexivity].
    cbn [andb]. rewrite (shape_view_flat_Sh4 _ _ _ Hb). cbn [bind].
    unfold shape_linear at 1.
    set (a' := (h' / 2 - 4) / 2) in *. set (b' := (w' / 2 - 4) / 2) in *.
    set (a := (h / 2 - 4) / 2) in *. set (b0 := (w / 2 - 4) / 2) in *.
    destruct (Nat.eqb_spec (a' * b') (a * b0)) as [E|E],
             (Nat.eqb_spec (16 * (a' * (b' * 1))) F) as [E'|E'];
      try (exfalso; nia); [|reflexivity].
    cbn [bind]. rewrite !shape_linear_Sh2. reflexivity.
  - assert (b = 0) by lia. subst b. cbn [andb].
    destruct ((12 <=? h') && (12 <=? w')); reflexivity.
Qed.

Lemma LeNet5_forward_shape (in_c ncls h w : nat) (m : LeNet5)
    (batch : nat) (training : bool) :
  LeNet5_init in_c ncls (h, w) = Ok m -> 0 < batch ->
  LeNet5_forward training m (Sh4 batch in_c h w) = Ok (Sh2 batch ncls).
Proof.
  intros Hinit Hb. rewrite LeNet5_forward_eq with (1 := Hinit).
  rewrite LeNet5_init_eq in Hinit.
  destruct (1 <=? in_c); [|discriminate]. cbn [andb] in Hinit.
  destruct ((12 <=? h) && (12 <=? w)) eqn:E; [|discriminate].
  apply andb_prop in E. destruct E as [-> ->].
  destruct (Nat.ltb_spec 0 batch); [|lia].
  now rewrite !Nat.eqb_refl.
Qed.

Lemma ResNet9_init_inv (in_c ncls h w : nat) (m : ResNet9) :
  ResNet9_init in_c ncls (h, w) = Ok m ->
  1 <= in_c /\ 16 <= h /\ 16 <= w /\
  r_feature_size m = 512 * (h / 16) * (w / 16).
Proof.
  intros Hinit. unfold ResNet9_init in Hinit.
  change (zeros 1 in_c (fst (h, w)) (snd (h, w))) with (Sh4 1 in_c h w)
    in Hinit.
  rewrite !residual_block_call in Hinit.
  apply bind_Ok_inv in Hinit. destruct Hinit as (a & Ea & Hinit).
  apply conv_bn_relu_shape_inv in Ea.
  destruct Ea as (_ & _ & _ & _ & _ & _ & ->).
  rewrite !residual_block_call in Hinit.
  apply bind_Ok_inv in Hinit. destruct Hinit as (b & Eb & Hinit).
  apply conv_bn_relu_shape_inv in Eb.
  destruct Eb as (Hin & _ & _ & _ & _ & _ & ->).
  assert (1 <= in_c) by (destruct in_c; [discriminate Hin | lia]).
  rewrite !residual_block_call in Hinit.
  apply bind_Ok_inv in Hinit. destruct Hinit as (c & Ec & Hinit).
  apply conv_bn_relu_shape_inv in Ec.
  destruct Ec as (_ & _ & _ & _ & _ & _ & ->).
  rewrite !residual_block_call in Hinit.
  apply bind_Ok_inv in Hinit. destruct Hinit as (d & Ed & Hinit).
  apply conv_bn_relu_shape_inv in Ed.
  destruct Ed as (_ & _ & _ & _ & _ & _ & ->).
  apply bind_Ok_inv in Hinit. destruct Hinit as (e & Ee & Hinit).
  change (call true (MaxPool2d 2 2)) with (shape_pool2d 2 2) in Ee.
  apply shape_pool2d_inv in Ee. destruct Ee as (_ & He1 & He2 & ->).
  cbv zeta in Hinit. rewrite size123_dims in Hinit.
  replace (h / 2 / 2 / 2 / 2) with (h / 16) in Hinit by lia.
  replace (w / 2 / 2 / 2 / 2) with (w / 16) in Hinit by lia.
  remember (512 * (h / 16) * (w / 16)) as F eqn:HF.
  apply Ok_inj in Hinit. subst m. cbn [r_feature_size].
  repeat split; trivial; lia.
Qed.

Lemma ResNet9_init_ok (in_c ncls h w : nat) :
  1 <= in_c -> 16 <= h -> 16 <= w ->
  ResNet9_init in_c ncls (h, w) =
  let f := 512 * (h / 16) * (w / 16) in
  Ok (mkResNet9 (residual_block in_c 64 false) (residual_block 64 128 true)
        (Sequential [residual_block 128 128 false;
                     residual_block 128 128 false])
        (residual_block 128 256 true) (residual_block 256 512 true)
        (Sequential [residual_block 512 512 false;
                     residual_block 512 512 false])
        (MaxPool2d 2 2) f (Linear f ncls)).
Proof.
  intros Hin Hh Hw. unfold ResNet9_init.
  change (zeros 1 in_c (fst (h, w)) (snd (h, w))) with (Sh4 1 in_c h w).
  repeat (rewrite residual_block_call;
          rewrite conv_bn_relu_shape_ok by block_side;
          cbn [bind]).
  change (call true (MaxPool2d 2 2)) with (shape_pool2d 2 2).
  rewrite shape_pool2d_ok by lia. cbn [bind]. cbv zeta.
  rewrite size123_dims.
  replace (h / 2 / 2 / 2 / 2) with (h / 16) by lia.
  replace (w / 2 / 2 / 2 / 2) with (w / 16) by lia.
  reflexivity.
Qed.

Lemma ResNet9_forward_ok (training : bool) (in_c ncls h w : nat)
    (m : ResNet9) (b h' w' : nat) :
  ResNet9_init in_c ncls (h, w) = Ok m ->
  0 < b -> 16 <= h' -> 16 <= w' ->
  h' / 16 * (w' / 16) = h / 16 * (w / 16) ->
  ResNet9_forward training m (Sh4 b in_c h' w') = Ok (Sh2 b ncls).
Proof.
  intros Hinit Hb Hh Hw Hf.
  rewrite ResNet9_forward_chain with (1 := Hinit).
  destruct (ResNet9_init_inv _ _ _ _ Hinit) as (Hin & _ & _ & ->).
  repeat (rewrite conv_bn_relu_shape_ok by block_side; cbn [bind]).
  change (@tadd Shape ShapeOps) with shape_add.
  rewrite shape_add_same. cbn [bind].
  repeat (rewrite conv_bn_relu_shape_ok by block_side; cbn [bind]).
  rewrite shape_add_same. cbn [bind].
  change (@max_pool2d Shape ShapeOps) with shape_pool2d.
  rewrite shape_pool2d_ok by lia. cbn [bind].
  change (@view_flat Shape ShapeOps) with shape_view_flat.
  rewrite (shape_view_flat_Sh4 _ _ _ Hb). cbn [bind].
  replace (h' / 2 / 2 / 2 / 2) with (h' / 16) by lia.
  replace (w' / 2 / 2 / 2 / 2) with (w' / 16) by lia.
  replace (512 * (h' / 16 * (w' / 16 * 1))) with (512 * (h / 16) * (w / 16))
    by (rewrite Nat.mul_1_r, <- Nat.mul_assoc, Hf; reflexivity).
  apply shape_linear_Sh2.
Qed.

Lemma ResNet9_forward_shape (in_c ncls h w : nat) (m : ResNet9)
    (batch : nat) (training : bool) :
  ResNet9_init in_c ncls (h, w) = Ok m -> 0 < batch ->
  ResNet9_forward training m (Sh4 batch in_c h w) = Ok (Sh2 batch ncls).
Proof.
  intros Hinit Hb.
  destruct (ResNet9_init_inv _ _ _ _ Hinit) as (_ & Hh & Hw & _).
  now apply ResNet9_forward_ok with (h := h) (w := w).
Qed.

(** C2 (as amended): for a model built by [LeNet5(in_channels,
    num_classes, input_size)] or [ResNet9(in_channels, num_classes,
    input_size)] and a non-empty batch of shape
    [(batch, in_channels, input_size[0], input_size[1])], in training or
    in evaluation mode, [forward] returns a tensor of shape
    [(batch, num_classes)]. *)
Theorem forward_output_shape (in_c ncls h w batch : nat) (training : bool) :
  0 < batch ->
  (forall m : LeNet5,
      LeNet5_init in_c ncls (h, w) = Ok m ->
      LeNet5_forward training m (Sh4 batch in_c h w) = Ok (Sh2 batch ncls)) /\
  (forall m : ResNet9,
      ResNet9_init in_c ncls (h, w) = Ok m ->
      ResNet9_forward training m (Sh4 batch in_c h w) = Ok (Sh2 batch ncls)).
Proof.
  intros Hb. split; intros m Hinit.
  - now apply LeNet5_forward_shape.
  - now apply ResNet9_forward_shape.
Qed.

(** C2 (as stated) fails on an empty batch: LeNet-5 for 28x28 one-channel
    images is built, and [forward] on a batch of shape [(0, 1, 28, 28)]
    raises at [x.view(x.size(0), -1)]. *)
Lemma forward_empty_batch_raises :
  exists m : LeNet5,
    LeNet5_init 1 10 (28, 28) = Ok m /\
    LeNet5_forward false m (Sh4 0 1 28 28) = Raise RuntimeError.
Proof. eexists. split; reflexivity. Qed.

Lemma forward_output_shape_witness :
  0 < 64 /\
  (exists m : LeNet5,
      LeNet5_init 3 10 (32, 32) = Ok m /\
      LeNet5_forward true m (Sh4 64 3 32 32) = Ok (Sh2 64 10)) /\
  (exists m : ResNet9,
      ResNet9_init 3 10 (32, 32) = Ok m /\
      ResNet9_forward true m (Sh4 64 3 32 32) = Ok (Sh2 64 10)).
Proof.
  assert (Hb : 0 < 64) by lia.
  destruct (@forward_output_shape 3 10 32 32 64 true Hb) as [HL HR].
  split; [exact Hb|]. split.
  - eexists. split; [reflexivity|]. apply HL. reflexivity.
  - eexists. split; [reflexivity|]. apply HR. reflexivity.
Defined.

Lemma ResNet9_skip_connections_witness :
  exists m : ResNet9,
    ResNet9_init 3 10 (32, 32) = Ok m /\
    ResNet9_forward true m (Sh4 64 3 32 32) =
      (x1 <- conv_bn_relu true 3 64 false (Sh4 64 3 32 32) ;;
       x2 <- conv_bn_relu true 64 128 true x1 ;;
       r1 <- (a <- conv_bn_relu true 128 128 false x2 ;;
              conv_bn_relu true 128 128 false a) ;;
       x3 <- tadd r1 x2 ;;
       x4 <- conv_bn_relu true 128 256 true x3 ;;
       x5 <- conv_bn_relu true 256 512 true x4 ;;
       r2 <- (a <- conv_bn_relu true 512 512 false x5 ;;
              conv_bn_relu true 512 512 false a) ;;
       x6 <- tadd r2 x5 ;;
       x7 <- max_pool2d 2 2 x6 ;;
       x8 <- view_flat x7 ;;
       linear (r_feature_size m) 10 x8).
Proof.
  eexists. split; [reflexivity|].
  apply (@ResNet9_skip_connections Shape ShapeOps true 3 10 (32, 32)).
  reflexivity.
Defined.

(** *** CombinedDataset *)

Lemma py_getitem_in_range {A : Type} (l : list A) (idx : Z) :
  (- Z.of_nat (length l) <= idx < Z.of_nat (length l))%Z ->
  exists a, py_getitem l idx = Ok a.
Proof.
  intros Hidx. unfold py_getitem.
  set (n := Z.of_nat (length l)) in *.
  set (i := if (idx <? 0)%Z then (idx + n)%Z else idx).
  assert (Hi : (0 <= i < n)%Z).
  { subst i. destruct (Z.ltb_spec idx 0); lia. }
  destruct (Z.ltb_spec i 0); [lia|].
  destruct (Z.leb_spec n i); [lia|]. cbn [orb].
  destruct (nth_error l (Z.to_nat i)) as [a|] eqn:E; [eauto|].
  apply nth_error_None in E. lia.
Qed.

Lemma py_getitem_out_of_range {A : Type} (l : list A) (idx : Z) :
  (idx < - Z.of_nat (length l) \/ Z.of_nat (length l) <= idx)%Z ->
  py_getitem l idx = Raise IndexError.
Proof.
  intros Hidx. unfold py_getitem.
  set (n := Z.of_nat (length l)) in *.
  destruct (Z.ltb_spec idx 0).
  - destruct (Z.ltb_spec (idx + n) 0); [reflexivity | lia].
  - destruct (Z.ltb_spec idx 0); [lia|].
    destruct (Z.leb_spec n idx); [reflexivity | lia].
Qed.




(** C10: [len(dataset)] is the length of the feature collection, whatever
    the label collection is. *)
Theorem len_is_features_length {X Y : Type} (fs : list X) (ls : list Y)
    (t : option (X -> result X)) :
  fst (CombinedDataset_len (CombinedDataset_init fs ls t)) = Ok (length fs).
Proof. reflexivity. Qed.




(** Each call leaves the object as it found it. *)
Lemma invoke_preserves {X Y : Type} (c : DatasetCall)
    (ds : CombinedDataset X Y) :
  snd (invoke c ds) = ds.
Proof.
  destruct c as [|idx]; [reflexivity|].
  unfold invoke, CombinedDataset_getitem, mbind, read, lift, mret.
  destruct (py_getitem (features ds) idx); [|reflexivity].
  destruct (py_getitem (labels ds) idx); [|reflexivity].
  destruct (transform ds) as [f|]; [|reflexivity].
  destruct (f a); reflexivity.
Qed.

(** C7: after any sequence of [__len__] and [__getitem__] calls, raising
    or not, the dataset's [features], [labels] and [transform] are what
    they were. *)
Theorem dataset_never_mutated {X Y : Type} (cs : list DatasetCall)
    (ds : CombinedDataset X Y) :
  snd (invoke_all cs ds) = ds.
Proof.
  revert ds. induction cs as [|c cs IH]; intros ds; [reflexivity|].
  cbn [invoke_all].
  pose proof (invoke_preserves c ds) as Hc.
  destruct (invoke c ds) as [r ds']. cbn [snd] in Hc. subst ds'.
  specialize (IH ds).
  destruct (invoke_all cs ds) as [rs ds'']. exact IH.
Qed.

(** *** Device selection *)

(** C4 (as amended): the device is ['cuda'] when CUDA is available,
    otherwise [torch.device("mps")] when MPS is available, otherwise
    ['cpu']; the global generator is seeded first when [manual_seed] is
    set, the accelerator's generator is seeded on the CUDA and MPS paths,
    and nothing else is seeded. *)
Theorem check_gpu_device_and_seeding (acc : Accelerators)
    (manual_seed print_info : bool) :
  fst (check_gpu acc manual_seed print_info) =
    (if cuda_is_available acc then DeviceName "cuda"
     else if mps_is_available acc then TorchDevice "mps"
     else DeviceName "cpu") /\
  filter is_seeding (snd (check_gpu acc manual_seed print_info)) =
    (if manual_seed then [ManualSeed 0] else []) ++
    (if cuda_is_available acc then [CudaManualSeedAll 0]
     else if mps_is_available acc then [MpsManualSeed 0]
     else []).
Proof.
  unfold check_gpu.
  destruct (cuda_is_available acc), (mps_is_available acc),
    manual_seed, print_info; split; reflexivity.
Qed.

(** C4 (as stated) fails: without accelerators and with
    [manual_seed=False] nothing is seeded. *)
Lemma check_gpu_cpu_unseeded : ~ always_seeds.
Proof.
  intros Hclaim.
  specialize (Hclaim (mkAccelerators false false) false true).
  discriminate Hclaim.
Qed.

(** *** Faults *)

Lemma getitem_features_raise {X Y : Type} (ds : CombinedDataset X Y)
    (idx : Z) (e : PyError) :
  py_getitem (features ds) idx = Raise e ->
  CombinedDataset_getitem idx ds = (Raise e, ds).
Proof.
  intros E. unfold CombinedDataset_getitem, mbind, read, lift.
  now rewrite E.
Qed.

Lemma getitem_labels_raise {X Y : Type} (ds : CombinedDataset X Y)
    (idx : Z) (x : X) (e : PyError) :
  py_getitem (features ds) idx = Ok x ->
  py_getitem (labels ds) idx = Raise e ->
  CombinedDataset_getitem idx ds = (Raise e, ds).
Proof.
  intros Ex E. unfold CombinedDataset_getitem, mbind, read, lift.
  now rewrite Ex, E.
Qed.

Lemma getitem_transform_raise {X Y : Type} (ds : CombinedDataset X Y)
    (idx : Z) (x : X) (y : Y) (f : X -> result X) (e : PyError) :
  py_getitem (features ds) idx = Ok x ->
  py_getitem (labels ds) idx = Ok y ->
  transform ds = Some f ->
  f x = Raise e ->
  CombinedDataset_getitem idx ds = (Raise e, ds).
Proof.
  intros Ex Ey Et E. unfold CombinedDataset_getitem, mbind, read, lift.
  now rewrite Ex, Ey, Et, E.
Qed.

Lemma LeNet5_init_conv1 {T : Type} `{Ops : TorchOps T} (in_c ncls : nat)
    (isz : nat * nat) (m : LeNet5) :
  LeNet5_init in_c ncls isz = Ok m ->
  conv1 m = Conv2d (mkConv2d in_c 6 5 1 2).
Proof.
  unfold LeNet5_init. intros E.
  repeat (apply bind_Ok_inv in E; destruct E as [? [_ E]]).
  injection E as <-. reflexivity.
Qed.

Lemma LeNet5_forward_bad_channels (training : bool) (in_c ncls : nat)
    (isz : nat * nat) (m : LeNet5) (b c h w : nat) :
  LeNet5_init in_c ncls isz = Ok m -> c <> in_c ->
  LeNet5_forward training m (Sh4 b c h w) = Raise RuntimeError.
Proof.
  intros Hinit Hc. unfold LeNet5_forward.
  rewrite (LeNet5_init_conv1 _ _ _ Hinit).
  cbn [call conv2d ShapeOps shape_conv2d in_channels].
  destruct (Nat.eqb_spec c in_c); [contradiction | reflexivity].
Qed.

Lemma ResNet9_forward_bad_channels (training : bool) (in_c ncls : nat)
    (isz : nat * nat) (m : ResNet9) (b c h w : nat) :
  ResNet9_init in_c ncls isz = Ok m -> c <> in_c ->
  ResNet9_forward training m (Sh4 b c h w) = Raise RuntimeError.
Proof.
  intros Hinit Hc. rewrite ResNet9_forward_chain with (1 := Hinit).
  unfold conv_bn_relu at 1.
  cbn [conv2d ShapeOps shape_conv2d in_channels].
  destruct (Nat.eqb_spec c in_c); [contradiction | reflexivity].
Qed.

(** *** Training and evaluation loops *)

(** *** Chains of operations *)

Lemma bind_assoc {A B C : Type} (r : result A) (f : A -> result B)
    (g : B -> result C) :
  bind (bind r f) g = bind r (fun a => bind (f a) g).
Proof. destruct r; reflexivity. Qed.

Lemma run_stages_app {T : Type} (pre post : list (T -> result T)) (x : T) :
  run_stages (pre ++ post) x = (y <- run_stages pre x ;; run_stages post y).
Proof.
  revert x. induction pre as [|f pre IH]; intros x; cbn [app run_stages].
  - reflexivity.
  - destruct (f x); cbn [bind]; auto.
Qed.

(** A chain raises what its first failing operation raises. *)
Lemma run_stages_raise {T : Type} {fs pre post : list (T -> result T)}
    {f : T -> result T} {x y : T} {e : PyError} :
  fs = pre ++ f :: post ->
  run_stages pre x = Ok y ->
  f y = Raise e ->
  run_stages fs x = Raise e.
Proof.
  intros -> Hpre Hf. rewrite run_stages_app, Hpre.
  cbn [bind run_stages]. now rewrite Hf.
Qed.

Lemma call_seq_app {T : Type} `{Ops : TorchOps T} (training : bool)
    (pre post : list Module) (x : T) :
  call_seq training (pre ++ post) x =
  (y <- call_seq training pre x ;; call_seq training post y).
Proof.
  revert x. induction pre as [|m pre IH]; intros x; cbn [app call_seq].
  - reflexivity.
  - destruct (call training m x); cbn [bind]; auto.
Qed.

Lemma Sequential_raises {T : Type} `{Ops : TorchOps T} (training : bool)
    (layers pre post : list Module) (m : Module) (x y : T) (e : PyError) :
  layers = pre ++ m :: post ->
  call training (Sequential pre) x = Ok y ->
  call training m y = Raise e ->
  call training (Sequential layers) x = Raise e.
Proof.
  intros -> Hpre Hm. rewrite call_Sequential in *.
  rewrite call_seq_app, Hpre. cbn [bind call_seq]. now rewrite Hm.
Qed.

Lemma LeNet5_forward_stages {T : Type} `{Ops : TorchOps T} (training : bool)
    (self : LeNet5) (x : T) :
  LeNet5_forward training self x =
  run_stages (LeNet5_stages training self) x.
Proof.
  unfold LeNet5_forward, LeNet5_stages. cbn [run_stages].
  repeat (apply bind_ext; [reflexivity | intros ?]). reflexivity.
Qed.

Lemma ResNet9_forward_stages {T : Type} `{Ops : TorchOps T} (training : bool)
    (self : ResNet9) (x : T) :
  ResNet9_forward training self x =
  run_stages (ResNet9_stages training self) x.
Proof.
  unfold ResNet9_forward, ResNet9_stages, skip. cbn [run_stages].
  repeat first [ rewrite bind_assoc
               | apply bind_ext; [reflexivity | intros ?] ].
  reflexivity.
Qed.

Ltac first_fault :=
  repeat match goal with
         | |- context [bind ?c _] => destruct c; cbn [bind]
         end;
  let H := fresh in
  intros H; first [discriminate H | injection H as ->; reflexivity].

Lemma LeNet5_init_dry_run {T : Type} `{Ops : TorchOps T}
    (in_c ncls : nat) (isz : nat * nat) (e : PyError) :
  run_stages (LeNet5_dry_run in_c) (zeros 1 in_c (fst isz) (snd isz)) =
    Raise e ->
  LeNet5_init in_c ncls isz = Raise e.
Proof.
  unfold LeNet5_init, LeNet5_dry_run. cbn [run_stages]. cbv zeta.
  first_fault.
Qed.

Lemma ResNet9_init_dry_run {T : Type} `{Ops : TorchOps T}
    (in_c ncls : nat) (isz : nat * nat) (e : PyError) :
  run_stages (ResNet9_dry_run in_c) (zeros 1 in_c (fst isz) (snd isz)) =
    Raise e ->
  ResNet9_init in_c ncls isz = Raise e.
Proof.
  unfold ResNet9_init, ResNet9_dry_run. cbn [run_stages]. cbv zeta.
  first_fault.
Qed.

Section LoopProperties.
Variables Model Optimizer Params Data Logits Loss Num : Type.
Context `{Lib : LoopLib Model Optimizer Params Data Logits Loss Num}.

Lemma test_loop_frame (device : Device) (bs : list (Data * list nat)) :
  (forall d m, parameters (snd (model_call d m)) = parameters m) ->
  forall (acc : Num) (c : nat) (w : World Model Optimizer Num),
    parameters (model (snd (test_loop device bs acc c w))) =
      parameters (model w) /\
    optimizer (snd (test_loop device bs acc c w)) = optimizer w.
Proof.
  intros Hcall.
  induction bs as [|[d t] rest IH]; intros acc c w; [cbn; auto|].
  cbn [test_loop]. unfold mbind, lift, to, on_model.
  destruct (device_ok device); cbn [fst snd]; [|auto].
  pose proof (Hcall d (model w)) as Hp.
  destruct (model_call d (model w)) as [[out|e] m1]; cbn [snd] in Hp;
    [|cbn; auto].
  destruct (cross_entropy_sum out t); [|cbn; auto].
  destruct (correct_in_batch out t); [|cbn; auto].
  destruct (IH (radd acc a) (c + a0)
              (mkWorld m1 (optimizer w) (console w))) as (H1 & H2).
  cbn [model optimizer console] in *.
  rewrite H1, H2. auto.
Qed.

(** C9: given that the mode switch and the forward pass leave the
    parameters alone, [simple_test] leaves the model's parameters and the
    optimizer as they were, whether it returns or raises. *)
Theorem simple_test_preserves_parameters (device : Device)
    (test_loader : Loader Data) (w : World Model Optimizer Num) :
  (forall m, parameters (set_eval m) = parameters m) ->
  (forall d m, parameters (snd (model_call d m)) = parameters m) ->
  parameters (model (snd (simple_test device test_loader w))) =
    parameters (model w) /\
  optimizer (snd (simple_test device test_loader w)) = optimizer w.
Proof.
  intros Heval Hcall. unfold simple_test, mbind, on_model, update, print.
  cbn [fst snd].
  destruct (test_loop_frame device (batches test_loader) Hcall rzero 0
              (mkWorld (set_eval (model w)) (optimizer w) (console w)))
    as (H1 & H2).
  cbn [model optimizer] in H1, H2. rewrite Heval in H1.
  destruct (test_loop device (batches test_loader) rzero 0 _)
    as [[[tl c]|e] w1]; cbn [snd] in H1, H2; [|auto].
  unfold lift, py_div. cbn [fst snd].
  destruct (dataset_len test_loader =? 0); cbn; auto.
Qed.




(** The loops over a list of batches split at any batch. *)
Lemma train_loop_app (device : Device) (loader : Loader Data) (epoch : nat)
    (pre post : list (Data * list nat)) :
  forall (idx : nat) (w : World Model Optimizer Num),
    train_loop device loader epoch idx (pre ++ post) w =
    match train_loop device loader epoch idx pre w with
    | (Ok _, w1) => train_loop device loader epoch (idx + length pre) post w1
    | (Raise e, w1) => (Raise e, w1)
    end.
Proof.
  induction pre as [|[d t] pre IH]; intros idx w.
  - cbn. now rewrite Nat.add_0_r.
  - cbn [app train_loop length].
    unfold mbind, lift, to, on_model, do_zero_grad, do_step, update.
    destruct (device_ok device); [|reflexivity].
    cbn [model optimizer console].
    destruct (model_call d _) as [[out|e] m1]; [|reflexivity].
    destruct (cross_entropy out t) as [loss|e]; [|reflexivity].
    cbn [model optimizer console].
    destruct (backward loss m1) as [[[]|e] m2]; [|reflexivity].
    cbn [model optimizer console].
    destruct (optimizer_step (optimizer w) m2) as [m3 o3].
    rewrite Nat.add_succ_r, <- Nat.add_succ_l.
    destruct (idx mod 100 =? 0); cbn; apply IH.
Qed.

Lemma test_loop_app (device : Device) (pre post : list (Data * list nat)) :
  forall (acc : Num) (c : nat) (w : World Model Optimizer Num),
    test_loop device (pre ++ post) acc c w =
    match test_loop device pre acc c w with
    | (Ok (acc', c'), w1) => test_loop device post acc' c' w1
    | (Raise e, w1) => (Raise e, w1)
    end.
Proof.
  induction pre as [|[d t] pre IH]; intros acc c w; [reflexivity|].
  cbn [app test_loop]. unfold mbind, lift, to, on_model.
  destruct (device_ok device); [|reflexivity].
  destruct (model_call d (model w)) as [[out|e] m1]; [|reflexivity].
  destruct (cross_entropy_sum out t); [|reflexivity].
  destruct (correct_in_batch out t); [|reflexivity].
  apply IH.
Qed.

(** [simple_train] is its loop, entered in training mode. *)
Lemma simple_train_unfold (device : Device) (loader : Loader Data)
    (epoch : nat) (w : World Model Optimizer Num) :
  simple_train device loader epoch w =
  train_loop device loader epoch 0 (batches loader)
    (mkWorld (set_train (model w)) (optimizer w) (console w)).
Proof. reflexivity. Qed.

(** A fault of the loop of [simple_test] is the fault of [simple_test]. *)
Lemma simple_test_loop_fault (device : Device) (loader : Loader Data)
    (w : World Model Optimizer Num) (e : PyError) :
  fst (test_loop device (batches loader) rzero 0
         (mkWorld (set_eval (model w)) (optimizer w) (console w))) =
    Raise e ->
  fst (simple_test device loader w) = Raise e.
Proof.
  unfold simple_test, mbind, on_model, update. cbn [fst snd].
  destruct (test_loop device (batches loader) rzero 0 _) as [[r|e'] w2];
    cbn [fst]; intros E; [discriminate E | now injection E as ->].
Qed.

(** The epochs split at any epoch. *)
Lemma epochs_from_app (device : Device)
    (train_loader test_loader : Loader Data) (j : nat) :
  forall (k epoch : nat) (w : World Model Optimizer Num),
    epochs_from device train_loader test_loader epoch (k + j) w =
    match epochs_from device train_loader test_loader epoch k w with
    | (Ok _, w1) =>
        epochs_from device train_loader test_loader (epoch + k) j w1
    | (Raise e, w1) => (Raise e, w1)
    end.
Proof.
  induction k as [|k IH]; intros epoch w.
  - cbn. now rewrite Nat.add_0_r.
  - cbn [Nat.add epochs_from]. unfold mbind.
    destruct (simple_train device train_loader epoch w) as [[[]|e] w1];
      [|reflexivity].
    destruct (simple_test device test_loader w1) as [[[]|e] w2];
      [|reflexivity].
    rewrite IH. now rewrite Nat.add_succ_r.
Qed.

Ltac loop_step :=
  unfold mbind, lift, to, on_model, do_zero_grad, do_step, update,
    correct_in_batch;
  repeat match goal with
         | H : _ = _ |- _ => rewrite H; cbn [model optimizer console]
         end.

(** C8: no function handles a fault; whatever an operation raises is what
    the function calling it raises.  In [__getitem__]: an [IndexError]
    (or any other exception) of [features[idx]] or [labels[idx]], and an
    exception of the transform.  In the models: a forward pass on a batch
    with the wrong number of channels raises the library's error; an
    exception of any layer of an [nn.Sequential], of any operation of the
    dry run of either constructor, of any operation of either forward
    pass, and of either the block or the addition in [m(x) + x].  In
    [simple_train], on any batch: an exception of [.to(device)], of the
    model, of the loss and of [backward].  In [simple_test], on any
    batch: an exception of [.to(device)], of the model, of the summed
    loss and of the comparison of predictions with targets; and after the
    loop the [ZeroDivisionError] of the division by an empty dataset's
    size.  In the epochs of [main]: an exception of [simple_train] or of
    [simple_test] in any epoch. *)
Theorem faults_propagate :
  (* CombinedDataset.__getitem__ *)
  (forall (X Y : Type) (ds : CombinedDataset X Y) (idx : Z),
      (idx < - Z.of_nat (length (features ds)) \/
       Z.of_nat (length (features ds)) <= idx)%Z ->
      CombinedDataset_getitem idx ds = (Raise IndexError, ds)) /\
  (forall (X Y : Type) (ds : CombinedDataset X Y) (idx : Z) (e : PyError),
      py_getitem (features ds) idx = Raise e ->
      CombinedDataset_getitem idx ds = (Raise e, ds)) /\
  (forall (X Y : Type) (ds : CombinedDataset X Y) (idx : Z) (x : X)
          (e : PyError),
      py_getitem (features ds) idx = Ok x ->
      py_getitem (labels ds) idx = Raise e ->
      CombinedDataset_getitem idx ds = (Raise e, ds)) /\
  (forall (X Y : Type) (ds : CombinedDataset X Y) (idx : Z) (x : X)
          (y : Y) (f : X -> result X) (e : PyError),
      py_getitem (features ds) idx = Ok x ->
      py_getitem (labels ds) idx = Ok y ->
      transform ds = Some f ->
      f x = Raise e ->
      CombinedDataset_getitem idx ds = (Raise e, ds)) /\
  (* a batch of the wrong shape *)
  (forall (training : bool) (in_c ncls : nat) (isz : nat * nat)
          (m : LeNet5) (b c h w : nat),
      LeNet5_init in_c ncls isz = Ok m -> c <> in_c ->
      LeNet5_forward training m (Sh4 b c h w) = Raise RuntimeError) /\
  (forall (training : bool) (in_c ncls : nat) (isz : nat * nat)
          (m : ResNet9) (b c h w : nat),
      ResNet9_init in_c ncls isz = Ok m -> c <> in_c ->
      ResNet9_forward training m (Sh4 b c h w) = Raise RuntimeError) /\
  (* nn.Sequential *)
  (forall (T : Type) (Ops : TorchOps T) (training : bool)
          (layers pre post : list Module) (m : Module) (x y : T)
          (e : PyError),
      layers = pre ++ m :: post ->
      call training (Sequential pre) x = Ok y ->
      call training m y = Raise e ->
      call training (Sequential layers) x = Raise e) /\
  (* LeNet5.__init__ and LeNet5.forward *)
  (forall (T : Type) (Ops : TorchOps T) (in_c ncls : nat)
          (isz : nat * nat) (pre post : list (T -> result T))
          (f : T -> result T) (y : T) (e : PyError),
      LeNet5_dry_run in_c = pre ++ f :: post ->
      run_stages pre (zeros 1 in_c (fst isz) (snd isz)) = Ok y ->
      f y = Raise e ->
      LeNet5_init in_c ncls isz = Raise e) /\
  (forall (T : Type) (Ops : TorchOps T) (training : bool) (self : LeNet5)
          (pre post : list (T -> result T)) (f : T -> result T) (x y : T)
          (e : PyError),
      LeNet5_stages training self = pre ++ f :: post ->
      run_stages pre x = Ok y ->
      f y = Raise e ->
      LeNet5_forward training self x = Raise e) /\
  (* ResNet9.__init__ and ResNet9.forward *)
  (forall (T : Type) (Ops : TorchOps T) (training : bool) (m : Module)
          (x : T) (e : PyError),
      call training m x = Raise e ->
      skip training m x = Raise e) /\
  (forall (T : Type) (Ops : TorchOps T) (training : bool) (m : Module)
          (x r : T) (e : PyError),
      call training m x = Ok r ->
      tadd r x = Raise e ->
      skip training m x = Raise e) /\
  (forall (T : Type) (Ops : TorchOps T) (in_c ncls : nat)
          (isz : nat * nat) (pre post : list (T -> result T))
          (f : T -> result T) (y : T) (e : PyError),
      ResNet9_dry_run in_c = pre ++ f :: post ->
      run_stages pre (zeros 1 in_c (fst isz) (snd isz)) = Ok y ->
      f y = Raise e ->
      ResNet9_init in_c ncls isz = Raise e) /\
  (forall (T : Type) (Ops : TorchOps T) (training : bool) (self : ResNet9)
          (pre post : list (T -> result T)) (f : T -> result T) (x y : T)
          (e : PyError),
      ResNet9_stages training self = pre ++ f :: post ->
      run_stages pre x = Ok y ->
      f y = Raise e ->
      ResNet9_forward training self x = Raise e) /\
  (* simple_train *)
  (forall (device : Device) (loader : Loader Data) (epoch : nat)
          (d : Data) (t : list nat) (post : list (Data * list nat))
          (w : World Model Optimizer Num),
      batches loader = (d, t) :: post ->
      device_ok device = false ->
      fst (simple_train device loader epoch w) = Raise RuntimeError) /\
  (forall (device : Device) (loader : Loader Data) (epoch : nat)
          (pre post : list (Data * list nat)) (d : Data) (t : list nat)
          (w w1 : World Model Optimizer Num) (e : PyError) (m' : Model),
      batches loader = pre ++ (d, t) :: post ->
      device_ok device = true ->
      train_loop device loader epoch 0 pre
        (mkWorld (set_train (model w)) (optimizer w) (console w)) =
        (Ok tt, w1) ->
      model_call d (zero_grad (optimizer w1) (model w1)) = (Raise e, m') ->
      fst (simple_train device loader epoch w) = Raise e) /\
  (forall (device : Device) (loader : Loader Data) (epoch : nat)
          (pre post : list (Data * list nat)) (d : Data) (t : list nat)
          (w w1 : World Model Optimizer Num) (e : PyError)
          (out : list Logits) (m1 : Model),
      batches loader = pre ++ (d, t) :: post ->
      device_ok device = true ->
      train_loop device loader epoch 0 pre
        (mkWorld (set_train (model w)) (optimizer w) (console w)) =
        (Ok tt, w1) ->
      model_call d (zero_grad (optimizer w1) (model w1)) = (Ok out, m1) ->
      cross_entropy out t = Raise e ->
      fst (simple_train device loader epoch w) = Raise e) /\
  (forall (device : Device) (loader : Loader Data) (epoch : nat)
          (pre post : list (Data * list nat)) (d : Data) (t : list nat)
          (w w1 : World Model Optimizer Num) (e : PyError)
          (out : list Logits) (m1 m2 : Model) (loss : Loss),
      batches loader = pre ++ (d, t) :: post ->
      device_ok device = true ->
      train_loop device loader epoch 0 pre
        (mkWorld (set_train (model w)) (optimizer w) (console w)) =
        (Ok tt, w1) ->
      model_call d (zero_grad (optimizer w1) (model w1)) = (Ok out, m1) ->
      cross_entropy out t = Ok loss ->
      backward loss m1 = (Raise e, m2) ->
      fst (simple_train device loader epoch w) = Raise e) /\
  (* simple_test *)
  (forall (device : Device) (loader : Loader Data) (d : Data)
          (t : list nat) (post : list (Data * list nat))
          (w : World Model Optimizer Num),
      batches loader = (d, t) :: post ->
      device_ok device = false ->
      fst (simple_test device loader w) = Raise RuntimeError) /\
  (forall (device : Device) (loader : Loader Data)
          (pre post : list (Data * list nat)) (d : Data) (t : list nat)
          (acc : Num) (c : nat) (w w1 : World Model Optimizer Num)
          (e : PyError) (m' : Model),
      batches loader = pre ++ (d, t) :: post ->
      device_ok device = true ->
      test_loop device pre rzero 0
        (mkWorld (set_eval (model w)) (optimizer w) (console w)) =
        (Ok (acc, c), w1) ->
      model_call d (model w1) = (Raise e, m') ->
      fst (simple_test device loader w) = Raise e) /\
  (forall (device : Device) (loader : Loader Data)
          (pre post : list (Data * list nat)) (d : Data) (t : list nat)
          (acc : Num) (c : nat) (w w1 : World Model Optimizer Num)
          (e : PyError) (out : list Logits) (m1 : Model),
      batches loader = pre ++ (d, t) :: post ->
      device_ok device = true ->
      test_loop device pre rzero 0
        (mkWorld (set_eval (model w)) (optimizer w) (console w)) =
        (Ok (acc, c), w1) ->
      model_call d (model w1) = (Ok out, m1) ->
      cross_entropy_sum out t = Raise e ->
      fst (simple_test device loader w) = Raise e) /\
  (forall (device : Device) (loader : Loader Data)
          (pre post : list (Data * list nat)) (d : Data) (t : list nat)
          (acc : Num) (c : nat) (w w1 : World Model Optimizer Num)
          (out : list Logits) (m1 : Model) (batch_loss : Num),
      batches loader = pre ++ (d, t) :: post ->
      device_ok device = true ->
      test_loop device pre rzero 0
        (mkWorld (set_eval (model w)) (optimizer w) (console w)) =
        (Ok (acc, c), w1) ->
      model_call d (model w1) = (Ok out, m1) ->
      cross_entropy_sum out t = Ok batch_loss ->
      length out <> length t ->
      fst (simple_test device loader w) = Raise RuntimeError) /\
  (forall (device : Device) (loader : Loader Data) (acc : Num) (c : nat)
          (w w1 : World Model Optimizer Num),
      test_loop device (batches loader) rzero 0
        (mkWorld (set_eval (model w)) (optimizer w) (console w)) =
        (Ok (acc, c), w1) ->
      dataset_len loader = 0 ->
      simple_test device loader w = (Raise ZeroDivisionError, w1)) /\
  (* the epochs of main *)
  (forall (device : Device) (train_loader test_loader : Loader Data)
          (k j : nat) (w w1 : World Model Optimizer Num) (e : PyError),
      epochs_from device train_loader test_loader 1 k w = (Ok tt, w1) ->
      fst (simple_train device train_loader (1 + k) w1) = Raise e ->
      fst (run_epochs device train_loader test_loader (k + S j) w) =
        Raise e) /\
  (forall (device : Device) (train_loader test_loader : Loader Data)
          (k j : nat) (w w1 w2 : World Model Optimizer Num) (e : PyError),
      epochs_from device train_loader test_loader 1 k w = (Ok tt, w1) ->
      simple_train device train_loader (1 + k) w1 = (Ok tt, w2) ->
      fst (simple_test device test_loader w2) = Raise e ->
      fst (run_epochs device train_loader test_loader (k + S j) w) =
        Raise e).
Proof.
  repeat apply conj.
  - intros X Y ds idx Hidx. apply getitem_features_raise.
    now apply py_getitem_out_of_range.
  - intros X Y ds idx e. apply getitem_features_raise.
  - intros X Y ds idx x e. apply getitem_labels_raise.
  - intros X Y ds idx x y f e. apply getitem_transform_raise.
  - intros training in_c ncls isz m b c h w.
    apply LeNet5_forward_bad_channels.
  - intros training in_c ncls isz m b c h w.
    apply ResNet9_forward_bad_channels.
  - intros T Ops training layers pre post m x y e.
    apply Sequential_raises.
  - intros T Ops in_c ncls isz pre post f y e Hfs Hpre Hf.
    apply LeNet5_init_dry_run.
    exact (run_stages_raise Hfs Hpre Hf).
  - intros T Ops training self pre post f x y e Hfs Hpre Hf.
    rewrite LeNet5_forward_stages.
    exact (run_stages_raise Hfs Hpre Hf).
  - intros T Ops training m x e Hm. unfold skip. now rewrite Hm.
  - intros T Ops training m x r e Hm Hadd. unfold skip. now rewrite Hm.
  - intros T Ops in_c ncls isz pre post f y e Hfs Hpre Hf.
    apply ResNet9_init_dry_run.
    exact (run_stages_raise Hfs Hpre Hf).
  - intros T Ops training self pre post f x y e Hfs Hpre Hf.
    rewrite ResNet9_forward_stages.
    exact (run_stages_raise Hfs Hpre Hf).
  - intros device loader epoch d t post w Hbs Hdev.
    rewrite simple_train_unfold, Hbs. cbn [train_loop].
    unfold mbind, lift, to. now rewrite Hdev.
  - intros device loader epoch pre post d t w w1 e m' Hbs Hdev Hpre Hcall.
    rewrite simple_train_unfold, Hbs, train_loop_app, Hpre.
    cbn [train_loop]. clear Hbs Hpre. loop_step. reflexivity.
  - intros device loader epoch pre post d t w w1 e out m1 Hbs Hdev Hpre
      Hcall Hce.
    rewrite simple_train_unfold, Hbs, train_loop_app, Hpre.
    cbn [train_loop]. clear Hbs Hpre. loop_step. reflexivity.
  - intros device loader epoch pre post d t w w1 e out m1 m2 loss Hbs Hdev
      Hpre Hcall Hce Hbw.
    rewrite simple_train_unfold, Hbs, train_loop_app, Hpre.
    cbn [train_loop]. clear Hbs Hpre. loop_step. reflexivity.
  - intros device loader d t post w Hbs Hdev.
    apply simple_test_loop_fault. rewrite Hbs. cbn [test_loop].
    unfold mbind, lift, to. now rewrite Hdev.
  - intros device loader pre post d t acc c w w1 e m' Hbs Hdev Hpre Hcall.
    apply simple_test_loop_fault. rewrite Hbs, test_loop_app, Hpre.
    cbn [test_loop]. clear Hbs Hpre. loop_step. reflexivity.
  - intros device loader pre post d t acc c w w1 e out m1 Hbs Hdev Hpre
      Hcall Hce.
    apply simple_test_loop_fault. rewrite Hbs, test_loop_app, Hpre.
    cbn [test_loop]. clear Hbs Hpre. loop_step. reflexivity.
  - intros device loader pre post d t acc c w w1 out m1 batch_loss Hbs
      Hdev Hpre Hcall Hce Hlen.
    apply simple_test_loop_fault. rewrite Hbs, test_loop_app, Hpre.
    cbn [test_loop]. clear Hbs Hpre.
    apply Nat.eqb_neq in Hlen. loop_step. reflexivity.
  - intros device loader acc c w w1 Hloop Hn.
    unfold simple_test, mbind, on_model, update. cbn [fst snd].
    rewrite Hloop. unfold lift, py_div. cbn [fst]. now rewrite Hn.
  - intros device train_loader test_loader k j w w1 e Hpre Htrain.
    unfold run_epochs. rewrite epochs_from_app, Hpre.
    cbn [epochs_from]. unfold mbind.
    destruct (simple_train device train_loader (1 + k) w1) as [[[]|e'] w2];
      cbn [fst] in Htrain; [discriminate Htrain | exact Htrain].
  - intros device train_loader test_loader k j w w1 w2 e Hpre Htrain Htest.
    unfold run_epochs. rewrite epochs_from_app, Hpre.
    cbn [epochs_from]. unfold mbind. rewrite Htrain.
    destruct (simple_test device test_loader w2) as [[[]|e'] w3];
      cbn [fst] in Htest; [discriminate Htest | exact Htest].
Qed.
End LoopProperties.

(** *** The statements at concrete inputs *)


Lemma simple_test_preserves_parameters_witness :
  let L := OneWeight.lib in
  (forall m : OneWeight.Net,
      parameters (LoopLib := L) (set_eval (LoopLib := L) m) =
      parameters (LoopLib := L) m) /\
  (forall (d : list Z) (m : OneWeight.Net),
      parameters (LoopLib := L) (snd (model_call (LoopLib := L) d m)) =
      parameters (LoopLib := L) m) /\
  parameters (LoopLib := L)
    (model (snd (simple_test (Lib := L) (DeviceName "cpu")
                   OneWeight.loader0 OneWeight.world0))) =
    parameters (LoopLib := L) (model OneWeight.world0) /\
  optimizer (snd (simple_test (Lib := L) (DeviceName "cpu")
                    OneWeight.loader0 OneWeight.world0)) =
    optimizer OneWeight.world0.
Proof.
  intros L.
  assert (Heval : forall m : OneWeight.Net,
             parameters (LoopLib := L) (set_eval (LoopLib := L) m) =
             parameters (LoopLib := L) m) by reflexivity.
  assert (Hcall : forall (d : list Z) (m : OneWeight.Net),
             parameters (LoopLib := L)
               (snd (model_call (LoopLib := L) d m)) =
             parameters (LoopLib := L) m).
  { intros d m. cbn. unfold OneWeight.net_call.
    destruct (existsb _ d); reflexivity. }
  split; [exact Heval|]. split; [exact Hcall|].
  exact (@simple_test_preserves_parameters _ _ _ _ _ _ _ L
           (DeviceName "cpu") OneWeight.loader0 OneWeight.world0
           Heval Hcall).
Defined.



Lemma faults_propagate_witness :
  CombinedDataset_getitem 2%Z (CombinedDataset_init [5; 6] [0; 1] None) =
    (Raise IndexError, CombinedDataset_init [5; 6] [0; 1] None) /\
  (let ds := CombinedDataset_init [5; 6] [0; 1]
               (Some (fun _ => Raise (UserError 1))) in
   CombinedDataset_getitem 0%Z ds = (Raise (UserError 1), ds)) /\
  (exists m : LeNet5,
      LeNet5_init 1 10 (28, 28) = Ok m /\
      LeNet5_forward false m (Sh4 4 3 28 28) = Raise RuntimeError) /\
  LeNet5_init (T := Shape) 1 10 (4, 4) = Raise RuntimeError /\
  fst (simple_train (Lib := OneWeight.lib) (TorchDevice "mps")
         OneWeight.loader0 1 OneWeight.world0) = Raise RuntimeError /\
  fst (simple_train (Lib := OneWeight.lib) (DeviceName "cpu")
         OneWeight.loader_bad 1 OneWeight.world0) = Raise ValueError /\
  fst (simple_test (Lib := OneWeight.lib) (DeviceName "cpu")
         OneWeight.loader_bad OneWeight.world0) = Raise ValueError /\
  fst (simple_test (Lib := OneWeight.lib) (DeviceName "cpu")
         (mkLoader [([0; 1]%Z, [0])] 2) OneWeight.world0) =
    Raise ValueError /\
  simple_test (Lib := OneWeight.lib) (DeviceName "cpu") (mkLoader [] 0)
    OneWeight.world0 =
    (Raise ZeroDivisionError, mkWorld (OneWeight.mkNet 1 0 false) tt []) /\
  fst (run_epochs (Lib := OneWeight.lib) (DeviceName "cpu")
         OneWeight.loader_bad OneWeight.loader0 3 OneWeight.world0) =
    Raise ValueError.
Proof.
  destruct (@faults_propagate _ _ _ _ _ _ _ OneWeight.lib)
    as (Hget & _ & _ & Htrans & Hlenet & _ & _ & Hdry & _ & _ & _ & _ & _ &
        Htrain_dev & Htrain & _ & _ & _ & Htest & Htest_loss & _ & Hdiv &
        Hepoch & _).
  split; [apply Hget; cbn; lia|].
  split; [intros ds; eapply Htrans; reflexivity|].
  split; [eexists; split; [reflexivity|];
          apply Hlenet with (in_c := 1) (ncls := 10) (isz := (28, 28));
          [reflexivity | discriminate]|].
  split.
  { apply Hdry
      with (pre := [call true (Conv2d (mkConv2d 1 6 5 1 2));
                    call true (AvgPool2d 2 2)])
           (f := call true (Conv2d (mkConv2d 6 16 5 1 0)))
           (post := [call true (AvgPool2d 2 2)])
           (y := Sh4 1 6 2 2); reflexivity. }
  split; [eapply Htrain_dev; reflexivity|].
  split.
  { eapply Htrain with (pre := [([0; 1]%Z, [0; 1])]) (post := []);
      reflexivity. }
  split.
  { eapply Htest with (pre := [([0; 1]%Z, [0; 1])]) (post := []);
      reflexivity. }
  split.
  { eapply Htest_loss with (pre := []) (post := []); reflexivity. }
  split; [eapply Hdiv; reflexivity|].
  eapply Hepoch with (k := 0) (j := 2); reflexivity.
Defined.
(** * Further properties *)

(** ** Construction and accepted inputs of the two models *)

Lemma ResNet9_forward_inv (training : bool) (in_c ncls h w : nat)
    (m : ResNet9) (b c h' w' : nat) (s : Shape) :
  ResNet9_init in_c ncls (h, w) = Ok m ->
  ResNet9_forward training m (Sh4 b c h' w') = Ok s ->
  0 < b /\ c = in_c /\ 16 <= h' /\ 16 <= w' /\
  h' / 16 * (w' / 16) = h / 16 * (w / 16) /\ s = Sh2 b ncls.
Proof.
  intros Hinit E.
  rewrite ResNet9_forward_chain with (1 := Hinit) in E.
  destruct (ResNet9_init_inv _ _ _ _ Hinit) as (Hin & _ & _ & HF).
  rewrite HF in E. clear HF Hinit m.
  apply bind_Ok_inv in E. destruct E as (x1 & E1 & E).
  apply conv_bn_relu_shape_inv in E1.
  destruct E1 as (-> & _ & _ & _ & _ & _ & ->).
  destruct (Nat.eqb_spec in_c 0) as [|_]; [lia|]. cbn [negb] in E.
  apply bind_Ok_inv in E. destruct E as (x2 & E2 & E).
  apply conv_bn_relu_shape_inv in E2.
  destruct E2 as (_ & _ & _ & _ & _ & H2 & ->).
  destruct (H2 eq_refl) as (_ & ? & ?).
  apply bind_Ok_inv in E. destruct E as (r1 & Er & E).
  apply bind_Ok_inv in Er. destruct Er as (a & Ea & Er).
  apply conv_bn_relu_shape_inv in Ea.
  destruct Ea as (_ & _ & _ & _ & _ & _ & ->).
  change (128 =? 0) with false in Er. cbv iota in Er.
  apply conv_bn_relu_shape_inv in Er.
  destruct Er as (_ & _ & _ & _ & _ & _ & ->).
  change (128 =? 0) with false in E. cbv iota in E.
  change (@tadd Shape ShapeOps) with shape_add in E.
  rewrite shape_add_same in E. cbn [bind] in E.
  apply bind_Ok_inv in E. destruct E as (x4 & E4 & E).
  apply conv_bn_relu_shape_inv in E4.
  destruct E4 as (_ & _ & _ & _ & _ & H4 & ->).
  destruct (H4 eq_refl) as (_ & ? & ?).
  apply bind_Ok_inv in E. destruct E as (x5 & E5 & E).
  apply conv_bn_relu_shape_inv in E5.
  destruct E5 as (_ & _ & _ & _ & _ & H5 & ->).
  destruct (H5 eq_refl) as (_ & ? & ?).
  apply bind_Ok_inv in E. destruct E as (r2 & Er & E).
  apply bind_Ok_inv in Er. destruct Er as (a & Ea & Er).
  apply conv_bn_relu_shape_inv in Ea.
  destruct Ea as (_ & _ & _ & _ & _ & _ & ->).
  change (512 =? 0) with false in Er. cbv iota in Er.
  apply conv_bn_relu_shape_inv in Er.
  destruct Er as (_ & _ & _ & _ & _ & _ & ->).
  change (512 =? 0) with false in E. cbv iota in E.
  rewrite shape_add_same in E. cbn [bind] in E.
  apply bind_Ok_inv in E. destruct E as (x7 & E7 & E).
  change (@max_pool2d Shape ShapeOps) with shape_pool2d in E7.
  apply shape_pool2d_inv in E7. destruct E7 as (_ & H7a & H7b & ->).
  apply bind_Ok_inv in E. destruct E as (x8 & E8 & E).
  change (@view_flat Shape ShapeOps) with shape_view_flat in E8.
  destruct (Nat.eq_dec b 0) as [->|Hb];
    [unfold shape_view_flat in E8; cbn [dims hd Nat.eqb] in E8;
     discriminate E8|].
  rewrite shape_view_flat_Sh4 in E8 by lia. apply Ok_inj in E8. subst x8.
  change (@linear Shape ShapeOps) with shape_linear in E.
  cbn [shape_linear] in E.
  replace (h' / 2 / 2 / 2 / 2) with (h' / 16) in E by lia.
  replace (w' / 2 / 2 / 2 / 2) with (w' / 16) in E by lia.
  destruct (Nat.eqb_spec (512 * (h' / 16 * (w' / 16 * 1)))
              (512 * (h / 16) * (w / 16))) as [Ef|]; [|discriminate].
  injection E as <-.
  assert (h' / 16 * (w' / 16) = h / 16 * (w / 16)).
  { rewrite Nat.mul_1_r, <- Nat.mul_assoc in Ef.
    now apply Nat.mul_cancel_l in Ef. }
  repeat split; trivial; lia.
Qed.

Lemma LeNet5_init_fields {T : Type} `{Ops : TorchOps T} (in_c ncls : nat)
    (isz : nat * nat) (m : LeNet5) :
  LeNet5_init in_c ncls isz = Ok m ->
  conv1 m = Conv2d (mkConv2d in_c 6 5 1 2) /\
  pool1 m = AvgPool2d 2 2 /\
  conv2 m = Conv2d (mkConv2d 6 16 5 1 0) /\
  pool2 m = AvgPool2d 2 2 /\
  fc1 m = Linear (feature_size m) 120 /\
  fc2 m = Linear 120 84 /\
  fc3 m = Linear 84 ncls.
Proof.
  unfold LeNet5_init. intros E.
  repeat (apply bind_Ok_inv in E; destruct E as [? [_ E]]).
  apply Ok_inj in E. subst m. cbn. repeat split.
Qed.

(** ** More on CombinedDataset *)

Lemma py_getitem_from_end {A : Type} (l : list A) (k : nat) :
  1 <= k <= length l ->
  exists a, nth_error l (length l - k) = Some a /\
            py_getitem l (- Z.of_nat k) = Ok a.
Proof.
  intros Hk.
  destruct (nth_error l (length l - k)) as [a|] eqn:E.
  - exists a. split; [reflexivity|]. unfold py_getitem.
    destruct (Z.ltb_spec (- Z.of_nat k) 0); [|lia].
    destruct (Z.ltb_spec (- Z.of_nat k + Z.of_nat (length l)) 0); [lia|].
    destruct (Z.leb_spec (Z.of_nat (length l))
                (- Z.of_nat k + Z.of_nat (length l))); [lia|].
    cbn [orb].
    replace (Z.to_nat (- Z.of_nat k + Z.of_nat (length l)))
      with (length l - k) by lia.
    now rewrite E.
  - apply nth_error_None in E. lia.
Qed.

Lemma getitem_ok {X Y : Type} (ds : CombinedDataset X Y) (idx : Z)
    (x : X) (y : Y) :
  py_getitem (features ds) idx = Ok x ->
  py_getitem (labels ds) idx = Ok y ->
  fst (CombinedDataset_getitem idx ds) =
    match transform ds with
    | None => Ok (x, y)
    | Some f => x' <- f x ;; Ok (x', y)
    end.
Proof.
  intros Ex Ey.
  unfold CombinedDataset_getitem, mbind, read, lift, mret.
  rewrite Ex, Ey.
  destruct (transform ds) as [f|]; [|reflexivity].
  destruct (f x); reflexivity.
Qed.

(** ** Statements *)

(** X1: [LeNet5(in_channels, num_classes, (h, w))] is built exactly when
    [in_channels >= 1], [h >= 12] and [w >= 12], with
    [feature_size = 16 * ((h/2 - 4)/2) * ((w/2 - 4)/2)]; without input
    channels or for a smaller input size the constructor's dry run
    raises. *)
Theorem LeNet5_construction (in_c ncls h w : nat) :
  LeNet5_init in_c ncls (h, w) =
  if (1 <=? in_c) && (12 <=? h) && (12 <=? w) then
    let f := 16 * ((h / 2 - 4) / 2) * ((w / 2 - 4) / 2) in
    Ok (mkLeNet5 (Conv2d (mkConv2d in_c 6 5 1 2)) (AvgPool2d 2 2)
          (Conv2d (mkConv2d 6 16 5 1 0)) (AvgPool2d 2 2) f
          (Linear f 120) (Linear 120 84) (Linear 84 ncls))
  else Raise RuntimeError.
Proof. apply LeNet5_init_eq. Qed.

(** X2: [ResNet9(in_channels, num_classes, (h, w))] is built exactly when
    [in_channels >= 1], [h >= 16] and [w >= 16], with
    [feature_size = 512 * (h/16) * (w/16)]. *)
Theorem ResNet9_construction (in_c ncls h w : nat) (m : ResNet9) :
  ResNet9_init in_c ncls (h, w) = Ok m <->
  1 <= in_c /\ 16 <= h /\ 16 <= w /\
  m = mkResNet9 (residual_block in_c 64 false) (residual_block 64 128 true)
        (Sequential [residual_block 128 128 false;
                     residual_block 128 128 false])
        (residual_block 128 256 true) (residual_block 256 512 true)
        (Sequential [residual_block 512 512 false;
                     residual_block 512 512 false])
        (MaxPool2d 2 2) (512 * (h / 16) * (w / 16))
        (Linear (512 * (h / 16) * (w / 16)) ncls).
Proof.
  split.
  - intros Hinit.
    destruct (ResNet9_init_inv _ _ _ _ Hinit) as (Hin & Hh & Hw & _).
    rewrite (ResNet9_init_ok ncls Hin Hh Hw) in Hinit.
    apply Ok_inj in Hinit. auto.
  - intros (Hin & Hh & Hw & ->). apply (ResNet9_init_ok ncls Hin Hh Hw).
Qed.

(** X3: a LeNet-5 built for inputs of size [(h, w)] maps a batch of shape
    [(b, c, h', w')] to [(b, num_classes)] exactly when the batch is not
    empty, [c] is the model's [in_channels], [h'] and [w'] are at least
    12 and the input flattens to as many features as [(h, w)] does;
    otherwise [forward] raises. *)
Theorem LeNet5_accepted_inputs (training : bool) (in_c ncls h w : nat)
    (m : LeNet5) (b c h' w' : nat) :
  LeNet5_init in_c ncls (h, w) = Ok m ->
  LeNet5_forward training m (Sh4 b c h' w') =
  if (0 <? b) && (c =? in_c) && (12 <=? h') && (12 <=? w') &&
     ((h' / 2 - 4) / 2 * ((w' / 2 - 4) / 2) =?
      (h / 2 - 4) / 2 * ((w / 2 - 4) / 2))
  then Ok (Sh2 b ncls) else Raise RuntimeError.
Proof. apply LeNet5_forward_eq. Qed.

Lemma LeNet5_accepted_inputs_witness :
  exists m : LeNet5,
    LeNet5_init 1 10 (28, 28) = Ok m /\
    LeNet5_forward false m (Sh4 4 1 31 30) = Ok (Sh2 4 10) /\
    LeNet5_forward false m (Sh4 4 1 32 32) = Raise RuntimeError.
Proof.
  eexists. split; [reflexivity|]. split.
  - rewrite (@LeNet5_accepted_inputs false 1 10 28 28 _ 4 1 31 30 eq_refl).
    reflexivity.
  - rewrite (@LeNet5_accepted_inputs false 1 10 28 28 _ 4 1 32 32 eq_refl).
    reflexivity.
Defined.

(** X4: a ResNet-9 built for inputs of size [(h, w)] maps a batch of shape
    [(b, c, h', w')] to [(b, num_classes)] exactly when the batch is not
    empty, [c] is the model's [in_channels], [h'] and [w'] are at least
    16 and [(h'/16) * (w'/16) = (h/16) * (w/16)]; in no other case does
    [forward] return. *)
Theorem ResNet9_accepted_inputs (training : bool) (in_c ncls h w : nat)
    (m : ResNet9) (b c h' w' : nat) (s : Shape) :
  ResNet9_init in_c ncls (h, w) = Ok m ->
  ResNet9_forward training m (Sh4 b c h' w') = Ok s <->
  0 < b /\ c = in_c /\ 16 <= h' /\ 16 <= w' /\
  h' / 16 * (w' / 16) = h / 16 * (w / 16) /\ s = Sh2 b ncls.
Proof.
  intros Hinit. split.
  - now apply ResNet9_forward_inv.
  - intros (Hb & -> & Hh & Hw & Hf & ->).
    now apply ResNet9_forward_ok with (h := h) (w := w).
Qed.

Lemma ResNet9_accepted_inputs_witness :
  exists m : ResNet9,
    ResNet9_init 3 10 (32, 32) = Ok m /\
    ResNet9_forward true m (Sh4 2 3 40 47) = Ok (Sh2 2 10).
Proof.
  eexists. split; [reflexivity|].
  apply (@ResNet9_accepted_inputs true 3 10 32 32 _ 2 3 40 47 (Sh2 2 10)
           eq_refl).
  repeat split; lia.
Defined.

(** X5: LeNet-5 has no layer that depends on the mode: for every tensor
    library and every input, [forward] computes the same in training and
    in evaluation mode. *)
Theorem LeNet5_mode_independent {T : Type} `{Ops : TorchOps T}
    (in_c ncls : nat) (isz : nat * nat) (m : LeNet5) (x : T) :
  LeNet5_init in_c ncls isz = Ok m ->
  LeNet5_forward true m x = LeNet5_forward false m x.
Proof.
  intros Hinit.
  destruct (LeNet5_init_fields _ _ _ Hinit)
    as (H1 & H2 & H3 & H4 & H5 & H6 & H7).
  unfold LeNet5_forward. rewrite H1, H2, H3, H4, H5, H6, H7. reflexivity.
Qed.

Lemma LeNet5_mode_independent_witness :
  exists m : LeNet5,
    LeNet5_init 3 10 (32, 32) = Ok m /\
    LeNet5_forward true m (Sh4 64 3 32 32) =
    LeNet5_forward false m (Sh4 64 3 32 32).
Proof.
  eexists. split; [reflexivity|].
  apply (@LeNet5_mode_independent Shape ShapeOps 3 10 (32, 32)).
  reflexivity.
Defined.

(** X6: on a batch of shape [(b, c, h, w)] a block built by
    [residual_block(i, o, pool)] with [i >= 1] and [o >= 1] needs
    [c = i] and a non-empty image, in training mode more than one value
    per channel, and with [pool] an image of at least 2x2; it yields [o]
    channels and keeps the image size, halved (rounding down) with
    [pool]. *)
Theorem residual_block_shape (training : bool) (i o : nat) (p : bool)
    (b c h w : nat) :
  1 <= i -> 1 <= o ->
  call training (residual_block i o p) (Sh4 b c h w) =
  if negb ((c =? i) && (1 <=? h) && (1 <=? w)) then Raise RuntimeError
  else if training && (b * h * w =? 1) then Raise ValueError
  else if negb p then Ok (Sh4 b o h w)
  else if (2 <=? h) && (2 <=? w) then Ok (Sh4 b o (h / 2) (w / 2))
  else Raise RuntimeError.
Proof.
  intros Hi Ho. rewrite residual_block_call, conv_bn_relu_shape_eq.
  destruct (Nat.leb_spec 1 o); [|lia]. cbn [andb].
  destruct (Nat.eqb_spec c i) as [->|]; [|reflexivity].
  destruct (Nat.eqb_spec i 0); [lia|].
  destruct (Nat.leb_spec 1 i); [|lia].
  reflexivity.
Qed.

(** Without input channels the block passes the empty batch on, and
    without output channels the library refuses the convolution. *)
Lemma residual_block_no_channels :
  call false (residual_block 0 64 false) (Sh4 2 0 4 4) = Ok (Sh4 2 0 4 4) /\
  call false (residual_block 3 0 false) (Sh4 2 3 4 4) = Raise RuntimeError.
Proof. split; reflexivity. Qed.

(** X7: with a transform that does not raise (or none), every index in
    [0, len(dataset)) can be read exactly when there are at least as many
    labels as features. *)
Theorem dataset_readable_iff {X Y : Type} (ds : CombinedDataset X Y) :
  (forall f x, transform ds = Some f -> exists x', f x = Ok x') ->
  (forall idx : Z,
      (0 <= idx < Z.of_nat (length (features ds)))%Z ->
      exists p, fst (CombinedDataset_getitem idx ds) = Ok p) <->
  length (features ds) <= length (labels ds).
Proof.
  intros Ht. split.
  - intros Hall.
    destruct (Nat.le_gt_cases (length (features ds)) (length (labels ds)))
      as [|Hlt]; [assumption|exfalso].
    destruct (Hall (Z.of_nat (length (labels ds)))) as [p Hp]; [lia|].
    destruct (@py_getitem_in_range X (features ds)
                (Z.of_nat (length (labels ds)))) as [x Ex]; [lia|].
    assert (Ey : py_getitem (labels ds) (Z.of_nat (length (labels ds))) =
                 Raise IndexError)
      by (apply py_getitem_out_of_range; lia).
    rewrite (getitem_labels_raise ds _ Ex Ey) in Hp.
    discriminate Hp.
  - intros Hle idx Hidx.
    destruct (@py_getitem_in_range X (features ds) idx) as [x Ex]; [lia|].
    destruct (@py_getitem_in_range Y (labels ds) idx) as [y Ey]; [lia|].
    rewrite (getitem_ok ds idx Ex Ey).
    destruct (transform ds) as [f|] eqn:Ef; [|eauto].
    destruct (Ht f x eq_refl) as [x' ->]. cbn. eauto.
Qed.

(** X8: a negative index counts from the end of each collection
    separately: [__getitem__(-k)] pairs the [k]-th feature from the end
    with the [k]-th label from the end, whatever the two lengths are. *)
Theorem getitem_from_end {X Y : Type} (ds : CombinedDataset X Y) (k : nat) :
  1 <= k <= length (features ds) ->
  k <= length (labels ds) ->
  exists (x : X) (y : Y),
    nth_error (features ds) (length (features ds) - k) = Some x /\
    nth_error (labels ds) (length (labels ds) - k) = Some y /\
    fst (CombinedDataset_getitem (- Z.of_nat k) ds) =
      match transform ds with
      | None => Ok (x, y)
      | Some f => x' <- f x ;; Ok (x', y)
      end.
Proof.
  intros Hf Hl.
  destruct (py_getitem_from_end (features ds) Hf) as (x & Nx & Ex).
  destruct (@py_getitem_from_end Y (labels ds) k) as (y & Ny & Ey); [lia|].
  exists x, y. repeat split; trivial. now apply getitem_ok.
Qed.

(** ** More on the loops *)

Lemma multiples_below (n : nat) :
  length (filter (fun i => i mod 100 =? 0) (seq 0 n)) = (n + 99) / 100.
Proof.
  induction n as [|n IH]; [reflexivity|].
  rewrite seq_S, filter_app, length_app, IH, Nat.add_0_l. cbn [filter].
  destruct (Nat.eqb_spec (n mod 100) 0); cbn [length]; lia.
Qed.

Section MoreLoopProperties.
Variables Model Optimizer Params Data Logits Loss Num : Type.
Context `{Lib : LoopLib Model Optimizer Params Data Logits Loss Num}.

(** The evaluation loop prints nothing and counts at most one correct
    prediction per label. *)
Lemma test_loop_console (device : Device) (bs : list (Data * list nat)) :
  forall (acc : Num) (c : nat) (w : World Model Optimizer Num),
    console (snd (test_loop device bs acc c w)) = console w.
Proof.
  induction bs as [|[d t] rest IH]; intros acc c w; [reflexivity|].
  cbn [test_loop]. unfold mbind, lift, to, on_model.
  destruct (device_ok device); [|reflexivity].
  destruct (model_call d (model w)) as [[out|e] m1]; [|reflexivity].
  destruct (cross_entropy_sum out t); [|reflexivity].
  destruct (correct_in_batch out t); [|reflexivity].
  now rewrite IH.
Qed.

Lemma count_correct_le (ps : list (Logits * nat)) :
  count_correct ps <= length ps.
Proof. unfold count_correct. apply filter_length_le. Qed.

Lemma test_loop_correct_le (device : Device) (bs : list (Data * list nat)) :
  forall (acc acc' : Num) (c c' : nat) (w w' : World Model Optimizer Num),
    test_loop device bs acc c w = (Ok (acc', c'), w') ->
    c' <= c + list_sum (map (fun bt => length (snd bt)) bs).
Proof.
  induction bs as [|[d t] rest IH]; intros acc acc' c c' w w' E.
  - injection E as <- <- <-. cbn. lia.
  - cbn [test_loop] in E. unfold mbind, lift, to, on_model in E.
    destruct (device_ok device); [|discriminate].
    destruct (model_call d (model w)) as [[out|e] m1]; [|discriminate].
    destruct (cross_entropy_sum out t); [|discriminate].
    unfold correct_in_batch in E.
    destruct (Nat.eqb_spec (length out) (length t)) as [El|]; [|discriminate].
    apply IH in E. simpl.
    pose proof (count_correct_le (combine out t)) as Hc.
    rewrite length_combine in Hc. lia.
Qed.

Lemma train_loop_console (device : Device) (loader : Loader Data)
    (epoch : nat) (bs : list (Data * list nat)) :
  forall (idx : nat) (w w' : World Model Optimizer Num),
    train_loop device loader epoch idx bs w = (Ok tt, w') ->
    exists lines : list (Line Num),
      console w' = console w ++ lines /\
      length lines =
        length (filter (fun i => i mod 100 =? 0) (seq idx (length bs))) /\
      Forall (fun l =>
                exists (seen batch_idx : nat) (loss : Num),
                  l = TrainProgress epoch seen (dataset_len loader)
                        batch_idx (length (batches loader)) loss /\
                  batch_idx mod 100 = 0) lines.
Proof.
  induction bs as [|[d t] rest IH]; intros idx w w' E.
  - injection E as <-. exists []. rewrite app_nil_r. auto.
  - cbn [train_loop] in E.
    unfold mbind, lift, to, on_model, do_zero_grad, do_step, update in E.
    destruct (device_ok device); [|discriminate].
    cbn [model optimizer console] in E.
    destruct (model_call d _) as [[out|e] m1]; [|discriminate].
    destruct (cross_entropy out t) as [loss|e]; [|discriminate].
    cbn [model optimizer console] in E.
    destruct (backward loss m1) as [[[]|e] m2]; [|discriminate].
    cbn [model optimizer console] in E.
    destruct (optimizer_step (optimizer w) m2) as [m3 o3].
    cbn [length seq filter].
    destruct (Nat.eqb_spec (idx mod 100) 0) as [Hidx|Hidx].
    + unfold print, update in E. cbn [model optimizer console] in E.
      apply IH in E. destruct E as (lines & Hc & Hl & Hall).
      cbn [console] in Hc.
      eexists (_ :: lines). rewrite Hc, <- app_assoc. cbn [app length].
      repeat split; [congruence|].
      constructor; [|assumption].
      now eexists _, idx, _.
    + unfold mret in E. apply IH in E. destruct E as (lines & Hc & Hl & Hall).
      cbn [console] in Hc. exists lines. auto.
Qed.



(** X9: an epoch of [simple_train] that returns has printed one progress
    line for every hundredth batch, starting with the first: over [n]
    batches, [(n + 99) / 100] lines, each for this epoch and a batch index
    that is a multiple of 100; the console is otherwise as before. *)
Theorem simple_train_progress_lines (device : Device)
    (train_loader : Loader Data) (epoch : nat)
    (w w' : World Model Optimizer Num) :
  simple_train device train_loader epoch w = (Ok tt, w') ->
  exists lines : list (Line Num),
    console w' = console w ++ lines /\
    length lines = (length (batches train_loader) + 99) / 100 /\
    Forall (fun l =>
              exists (seen batch_idx : nat) (loss : Num),
                l = TrainProgress epoch seen (dataset_len train_loader)
                      batch_idx (length (batches train_loader)) loss /\
                batch_idx mod 100 = 0) lines.
Proof.
  unfold simple_train, mbind, on_model, update. cbn [fst snd]. intros E.
  apply train_loop_console in E. destruct E as (lines & Hc & Hl & Hall).
  cbn [console] in Hc. exists lines.
  rewrite multiples_below in Hl. auto.
Qed.

(** X10: [simple_test] prints nothing unless it returns; it returns only
    for a dataset that is not empty, and then it has printed exactly one
    summary, whose count of correct predictions is at most the number of
    labels the loader yields. *)
Theorem simple_test_console (device : Device) (test_loader : Loader Data)
    (w : World Model Optimizer Num) :
  match simple_test device test_loader w with
  | (Ok _, w') =>
      dataset_len test_loader <> 0 /\
      exists (average : Num) (correct : nat),
        console w' =
          console w ++
          [TestSummary average correct (dataset_len test_loader)] /\
        correct <=
          list_sum (map (fun bt => length (snd bt)) (batches test_loader))
  | (Raise _, w') => console w' = console w
  end.
Proof.
  unfold simple_test, mbind, on_model, update. cbn [fst snd].
  pose proof (test_loop_console device (batches test_loader) rzero 0
                (mkWorld (set_eval (model w)) (optimizer w) (console w)))
    as Hc.
  destruct (test_loop device (batches test_loader) rzero 0 _)
    as [[[tl c]|e] w1] eqn:E; cbn [snd console] in Hc; [|exact Hc].
  apply test_loop_correct_le in E. cbn [plus] in E.
  unfold lift, py_div. cbn [fst snd].
  destruct (Nat.eqb_spec (dataset_len test_loader) 0); [exact Hc|].
  unfold print, update. cbn [console]. rewrite Hc.
  split; [assumption|]. eauto.
Qed.


End MoreLoopProperties.

(** ** The further statements at concrete inputs *)

Lemma residual_block_shape_witness :
  1 <= 3 /\ 1 <= 64 /\
  call true (residual_block 3 64 true) (Sh4 2 3 32 32) =
  (if negb ((3 =? 3) && (1 <=? 32) && (1 <=? 32)) then Raise RuntimeError
   else if true && (2 * 32 * 32 =? 1) then Raise ValueError
   else if negb true then Ok (Sh4 2 64 32 32)
   else if (2 <=? 32) && (2 <=? 32) then Ok (Sh4 2 64 (32 / 2) (32 / 2))
   else Raise RuntimeError).
Proof.
  split; [lia|]. split; [lia|].
  apply (@residual_block_shape true 3 64 true 2 3 32 32); lia.
Defined.

Lemma dataset_readable_iff_witness :
  let ds := CombinedDataset_init [5; 6] [0; 1; 0] None in
  (forall (f : nat -> result nat) (x : nat),
      transform ds = Some f -> exists x', f x = Ok x') /\
  ((forall idx : Z,
       (0 <= idx < Z.of_nat (length (features ds)))%Z ->
       exists p, fst (CombinedDataset_getitem idx ds) = Ok p) <->
   length (features ds) <= length (labels ds)).
Proof.
  intros ds.
  assert (Ht : forall (f : nat -> result nat) (x : nat),
             transform ds = Some f -> exists x', f x = Ok x')
    by (intros f x Hf; discriminate Hf).
  split; [exact Ht|].
  exact (@dataset_readable_iff nat nat ds Ht).
Defined.

Lemma getitem_from_end_witness :
  let ds := CombinedDataset_init [5; 6; 7] [0; 1] None in
  1 <= 1 <= length (features ds) /\
  1 <= length (labels ds) /\
  exists (x : nat) (y : nat),
    nth_error (features ds) (length (features ds) - 1) = Some x /\
    nth_error (labels ds) (length (labels ds) - 1) = Some y /\
    fst (CombinedDataset_getitem (- Z.of_nat 1) ds) =
      match transform ds with
      | None => Ok (x, y)
      | Some f => x' <- f x ;; Ok (x', y)
      end.
Proof.
  intros ds.
  assert (Hf : 1 <= 1 <= length (features ds)) by (cbn; lia).
  assert (Hl : 1 <= length (labels ds)) by (cbn; lia).
  split; [exact Hf|]. split; [exact Hl|].
  exact (@getitem_from_end nat nat ds 1 Hf Hl).
Defined.

Lemma simple_train_progress_lines_witness :
  let w' := mkWorld (OneWeight.mkNet 21 (-28) true) tt
              [TrainProgress 3 0 5 0 2 8%Z] in
  simple_train (Lib := OneWeight.lib) (DeviceName "cpu")
    OneWeight.loader0 3 OneWeight.world0 = (Ok tt, w') /\
  exists lines : list (Line Z),
    console w' = console OneWeight.world0 ++ lines /\
    length lines = (length (batches OneWeight.loader0) + 99) / 100 /\
    Forall (fun l =>
              exists (seen batch_idx : nat) (loss : Z),
                l = TrainProgress 3 seen (dataset_len OneWeight.loader0)
                      batch_idx (length (batches OneWeight.loader0)) loss /\
                batch_idx mod 100 = 0) lines.
Proof.
  intros w'.
  assert (E : simple_train (Lib := OneWeight.lib) (DeviceName "cpu")
                OneWeight.loader0 3 OneWeight.world0 = (Ok tt, w'))
    by (vm_compute; reflexivity).
  split; [exact E|].
  exact (@simple_train_progress_lines _ _ _ _ _ _ _ OneWeight.lib
           (DeviceName "cpu") OneWeight.loader0 3 OneWeight.world0 w' E).
Defined.

